(** * Tool adapters of the agent backend: [tools/global_tools.py]

    A shallow embedding of the three tools of the module
    ([CustomHumanInput], [get_papers_from_arxiv], [openapi_request]) and
    the properties of their results.

    Python values are an inductive type, a call either returns or raises,
    and the outside world (the socket client, the arXiv client, the HTTP
    library, the clock and the id generator) is a record of answers.  Each
    tool is a computation that appends to a trace of the calls it makes
    and ends in a returned value or a raised exception. *)

From Stdlib Require Import String Ascii List ZArith Bool Lia.
Import ListNotations.
Local Open Scope string_scope.

(** ** Python values, exceptions and outcomes *)

Module Py.

(** The values that flow through the module.  A [str] is kept as its UTF-8
    bytes; a [float] is kept as the literal it was read from and is never
    computed with; the keys of every [dict] met here are strings, and a
    [dict] keeps its entries in insertion order. *)
#[warnings="-register-all"]
Inductive PyVal : Type :=
| PyNone
| PyBool (b : bool)
| PyInt (z : Z)
| PyFloat (literal : string)
| PyStr (s : string)
| PyList (items : list PyVal)
| PyTuple (items : list PyVal)
| PyDict (entries : list (string * PyVal)).

(** Exception classes, all below [Exception]; [OtherException] stands for
    any further class that is not a [TimeoutError]. *)
Inductive exn_class : Type :=
| TimeoutError
| JSONDecodeError
| RecursionError
| TypeError
| AttributeError
| KeyError
| IndexError
| ConnectionError
| ValidationError
| OtherException (name : string).

(** An exception instance: its class and [str(e)]. *)
Record exn : Type := mkExn { exn_cls : exn_class; exn_str : string }.

Inductive outcome (A : Type) : Type :=
| Return (a : A)
| Raise (e : exn).
Arguments Return {A} a.
Arguments Raise {A} e.

(** [isinstance(e, TimeoutError)] *)
Definition is_TimeoutError (e : exn) : bool :=
  match exn_cls e with TimeoutError => true | _ => false end.

(** [isinstance(v, str)] *)
Definition isinstance_str (v : PyVal) : bool :=
  match v with PyStr _ => true | _ => false end.

(** [s.startswith(c)] for a one-character prefix. *)
Definition startswith (s : string) (c : ascii) : bool :=
  match s with
  | String a _ => Ascii.eqb a c
  | EmptyString => false
  end.

(** [v == s] for a [str] literal [s]: only a [str] equals a [str]. *)
Definition eq_str (v : PyVal) (s : string) : bool :=
  match v with PyStr t => String.eqb t s | _ => false end.

(** [v is None] *)
Definition is_None (v : PyVal) : bool :=
  match v with PyNone => true | _ => false end.

(** A byte that continues a UTF-8 sequence ([10xxxxxx]). *)
Definition is_continuation (a : ascii) : bool :=
  let n := nat_of_ascii a in (128 <=? n)%nat && (n <? 192)%nat.

(** Number of code points of a [str] held as UTF-8. *)
Fixpoint str_len (s : string) : nat :=
  match s with
  | EmptyString => 0
  | String a r => if is_continuation a then str_len r else S (str_len r)
  end.

Definition type_error (msg : string) : exn := mkExn TypeError msg.

(** [len(v)] *)
Definition py_len (v : PyVal) : outcome nat :=
  match v with
  | PyStr s => Return (str_len s)
  | PyList l | PyTuple l => Return (length l)
  | PyDict d => Return (length d)
  | PyNone => Raise (type_error "object of type 'NoneType' has no len()")
  | PyBool _ => Raise (type_error "object of type 'bool' has no len()")
  | PyInt _ => Raise (type_error "object of type 'int' has no len()")
  | PyFloat _ => Raise (type_error "object of type 'float' has no len()")
  end.

(** [v.values()], as the sequence it iterates over. *)
Definition py_values (v : PyVal) : outcome (list PyVal) :=
  match v with
  | PyDict d => Return (map snd d)
  | _ => Raise (mkExn AttributeError "object has no attribute 'values'")
  end.

(** [next((x for x in vs if x is not None), default)] *)
Fixpoint next_not_None (vs : list PyVal) (default : PyVal) : PyVal :=
  match vs with
  | [] => default
  | v :: r => if is_None v then next_not_None r default else v
  end.

(** [seq[i]] on a list or tuple, for an index [i >= 0]. *)
Definition seq_item (l : list PyVal) (i : nat) (kind : string) : outcome PyVal :=
  match nth_error l i with
  | Some v => Return v
  | None => Raise (mkExn IndexError (kind ++ " index out of range"))
  end.

(** One code point of a [str]: the lead byte and its continuation bytes. *)
Fixpoint take_continuation (s : string) : string :=
  match s with
  | String a r => if is_continuation a then String a (take_continuation r) else EmptyString
  | EmptyString => EmptyString
  end.

Fixpoint str_item (s : string) (i : nat) : option string :=
  match s with
  | EmptyString => None
  | String a r =>
      if is_continuation a then str_item r i
      else match i with
           | O => Some (String a (take_continuation r))
           | S j => str_item r j
           end
  end.

(** Lookup in a [dict] with string keys. *)
Fixpoint dict_get (d : list (string * PyVal)) (k : string) : option PyVal :=
  match d with
  | [] => None
  | (k', v) :: r => if String.eqb k' k then Some v else dict_get r k
  end.

(** [d[k] = v]: an existing key keeps its place, a new one goes last. *)
Fixpoint dict_set (d : list (string * PyVal)) (k : string) (v : PyVal)
  : list (string * PyVal) :=
  match d with
  | [] => [(k, v)]
  | (k', v') :: r =>
      if String.eqb k' k then (k', v) :: r else (k', v') :: dict_set r k v
  end.

Fixpoint dict_remove (d : list (string * PyVal)) (k : string)
  : list (string * PyVal) :=
  match d with
  | [] => []
  | (k', v') :: r =>
      if String.eqb k' k then r else (k', v') :: dict_remove r k
  end.

(** [repr] of a key made of plain characters, as [KeyError] prints it. *)
Definition key_repr (k : string) : string := "'" ++ k ++ "'".

(** [v[i]] for an index [i >= 0]. *)
Definition py_getitem (v : PyVal) (i : nat) : outcome PyVal :=
  match v with
  | PyList l => seq_item l i "list"
  | PyTuple l => seq_item l i "tuple"
  | PyStr s =>
      match str_item s i with
      | Some c => Return (PyStr c)
      | None => Raise (mkExn IndexError "string index out of range")
      end
  | PyDict _ => Raise (mkExn KeyError "key not found")
  | _ => Raise (type_error "object is not subscriptable")
  end.

(** [a + b] *)
Definition py_add (a b : PyVal) : outcome PyVal :=
  match a, b with
  | PyStr s, PyStr t => Return (PyStr (s ++ t))
  | PyInt x, PyInt y => Return (PyInt (x + y))
  | PyList l, PyList m => Return (PyList (l ++ m))
  | PyTuple l, PyTuple m => Return (PyTuple (l ++ m))
  | _, _ => Raise (type_error "unsupported operand type(s) for +")
  end.

End Py.

(** ** [json.loads]

    The decoder of the standard library, as far as its result goes: the
    grammar it accepts (objects, arrays, strings with their escapes,
    numbers, [true], [false], [null], [NaN], [Infinity], [-Infinity],
    white space around every token), the value it builds, and a
    [JSONDecodeError] for anything else.  Limits of the interpreter
    (recursion depth, the length of an integer literal) are not modelled. *)

Module Json.
Import Py.

Definition decode_error (msg : string) : exn := mkExn JSONDecodeError msg.

Definition is_ws (a : ascii) : bool :=
  let n := nat_of_ascii a in
  (n =? 32)%nat || (n =? 9)%nat || (n =? 10)%nat || (n =? 13)%nat.

Fixpoint skip_ws (s : string) : string :=
  match s with
  | String a r => if is_ws a then skip_ws r else s
  | EmptyString => s
  end.

Definition is_digit (a : ascii) : bool :=
  let n := nat_of_ascii a in (48 <=? n)%nat && (n <=? 57)%nat.

Definition hex_val (a : ascii) : option Z :=
  let n := nat_of_ascii a in
  if (48 <=? n)%nat && (n <=? 57)%nat then Some (Z.of_nat n - 48)%Z
  else if (97 <=? n)%nat && (n <=? 102)%nat then Some (Z.of_nat n - 87)%Z
  else if (65 <=? n)%nat && (n <=? 70)%nat then Some (Z.of_nat n - 55)%Z
  else None.

(** The longest prefix of digits and what follows it. *)
Fixpoint span_digits (s : string) : string * string :=
  match s with
  | String a r =>
      if is_digit a
      then let (d, rest) := span_digits r in (String a d, rest)
      else (EmptyString, s)
  | EmptyString => (EmptyString, EmptyString)
  end.

Fixpoint digits_to_Z (d : string) (acc : Z) : Z :=
  match d with
  | String a r => digits_to_Z r (10 * acc + (Z.of_nat (nat_of_ascii a) - 48))%Z
  | EmptyString => acc
  end.

Definition byte (z : Z) : ascii := ascii_of_nat (Z.to_nat z).

(** UTF-8 bytes of a code point, first byte first. *)
Definition utf8 (cp : Z) : list ascii :=
  if (cp <? 128)%Z then [byte cp]
  else if (cp <? 2048)%Z then
    [byte (192 + cp / 64); byte (128 + cp mod 64)]
  else if (cp <? 65536)%Z then
    [byte (224 + cp / 4096); byte (128 + (cp / 64) mod 64); byte (128 + cp mod 64)]
  else
    [byte (240 + cp / 262144); byte (128 + (cp / 4096) mod 64);
     byte (128 + (cp / 64) mod 64); byte (128 + cp mod 64)].

(** The four hexadecimal digits of a [\uXXXX] escape. *)
Definition hex4 (s : string) : option (Z * string) :=
  match s with
  | String a (String b (String c (String d r))) =>
      match hex_val a, hex_val b, hex_val c, hex_val d with
      | Some x, Some y, Some z, Some w => Some (((x * 16 + y) * 16 + z) * 16 + w, r)%Z
      | _, _, _, _ => None
      end
  | _ => None
  end.

Definition bad_u : exn := decode_error "Invalid \uXXXX escape".

(** A [\uXXXX] escape, read after the [u]; a high surrogate followed by a
    [\u] low surrogate makes one code point. *)
Definition scan_u (s : string) : outcome (Z * string) :=
  match hex4 s with
  | None => Raise bad_u
  | Some (uni, r) =>
      if ((55296 <=? uni) && (uni <=? 56319))%Z then
        match r with
        | String "\" (String "u" r2) =>
            match hex4 r2 with
            | None => Raise bad_u
            | Some (uni2, r3) =>
                if ((56320 <=? uni2) && (uni2 <=? 57343))%Z
                then Return (65536 + ((uni - 55296) * 1024 + (uni2 - 56320)), r3)%Z
                else Return (uni, r)
            end
        | _ => Return (uni, r)
        end
      else Return (uni, r)
  end.

Definition escape_char (a : ascii) : option ascii :=
  let n := nat_of_ascii a in
  if (n =? 34)%nat then Some a
  else if (n =? 92)%nat then Some a
  else if (n =? 47)%nat then Some a
  else if (n =? 98)%nat then Some (ascii_of_nat 8)
  else if (n =? 102)%nat then Some (ascii_of_nat 12)
  else if (n =? 110)%nat then Some (ascii_of_nat 10)
  else if (n =? 114)%nat then Some (ascii_of_nat 13)
  else if (n =? 116)%nat then Some (ascii_of_nat 9)
  else None.

(** The body of a string, read after its opening quote; [acc] holds the
    bytes read so far, last first.  Every step consumes input, so a fuel
    of the input's length is never used up. *)
Fixpoint scanstring (fuel : nat) (s : string) (acc : list ascii)
  : outcome (string * string) :=
  match fuel, s with
  | _, EmptyString => Raise (decode_error "Unterminated string starting at")
  | O, _ => Raise (decode_error "Unterminated string starting at")
  | S f, String a r =>
      let n := nat_of_ascii a in
      if (n =? 34)%nat then Return (string_of_list_ascii (rev acc), r)
      else if (n =? 92)%nat then
        match r with
        | EmptyString => Raise (decode_error "Unterminated string starting at")
        | String e r' =>
            if (nat_of_ascii e =? 117)%nat then
              match scan_u r' with
              | Raise x => Raise x
              | Return (cp, r'') => scanstring f r'' (rev (utf8 cp) ++ acc)
              end
            else
              match escape_char e with
              | Some c => scanstring f r' (c :: acc)
              | None => Raise (decode_error "Invalid \escape")
              end
        end
      else if (n <? 32)%nat then Raise (decode_error "Invalid control character at")
      else scanstring f r (a :: acc)
  end.

(** The fraction of a number: a dot and at least one digit. *)
Definition scan_frac (s : string) : string * string :=
  match s with
  | String "." r =>
      match span_digits r with
      | (EmptyString, _) => (EmptyString, s)
      | (d, rest) => (String "." d, rest)
      end
  | _ => (EmptyString, s)
  end.

(** The exponent of a number: [e] or [E], an optional sign, digits. *)
Definition scan_exp (s : string) : string * string :=
  match s with
  | String e r =>
      if (nat_of_ascii e =? 101)%nat || (nat_of_ascii e =? 69)%nat then
        let (sign, r') :=
          match r with
          | String g r1 =>
              if (nat_of_ascii g =? 43)%nat || (nat_of_ascii g =? 45)%nat
              then (String g EmptyString, r1) else (EmptyString, r)
          | EmptyString => (EmptyString, r)
          end in
        match span_digits r' with
        | (EmptyString, _) => (EmptyString, s)
        | (d, rest) => (String e (sign ++ d), rest)
        end
      else (EmptyString, s)
  | EmptyString => (EmptyString, s)
  end.

(** A number at the head of [s], if there is one: an optional minus sign,
    then a single zero or a run of digits that does not begin with zero,
    then an optional fraction and an optional exponent.  With neither
    fraction nor exponent it is an [int], otherwise a [float]. *)
Definition scan_number (s : string) : option (PyVal * string) :=
  let (neg, s1) :=
    match s with
    | String "-" r => (true, r)
    | _ => (false, s)
    end in
  let int_part :=
    match s1 with
    | String "0" r => Some ("0", r)
    | String a _ =>
        if is_digit a then Some (span_digits s1) else None
    | EmptyString => None
    end in
  match int_part with
  | None => None
  | Some (d, s2) =>
      let (frac, s3) := scan_frac s2 in
      let (ex, s4) := scan_exp s3 in
      match frac, ex with
      | EmptyString, EmptyString =>
          Some (PyInt (if neg then - digits_to_Z d 0 else digits_to_Z d 0)%Z, s4)
      | _, _ =>
          Some (PyFloat ((if neg then "-" else EmptyString) ++ d ++ frac ++ ex), s4)
      end
  end.

(** [s] begins with [p]: what follows [p]. *)
Fixpoint strip_prefix (p s : string) : option string :=
  match p, s with
  | EmptyString, _ => Some s
  | String a p', String b s' => if Ascii.eqb a b then strip_prefix p' s' else None
  | String _ _, EmptyString => None
  end.

Definition scan_literal (s : string) : option (PyVal * string) :=
  match strip_prefix "null" s with Some r => Some (PyNone, r) | None =>
  match strip_prefix "true" s with Some r => Some (PyBool true, r) | None =>
  match strip_prefix "false" s with Some r => Some (PyBool false, r) | None =>
  match scan_number s with Some res => Some res | None =>
  match strip_prefix "NaN" s with Some r => Some (PyFloat "nan", r) | None =>
  match strip_prefix "Infinity" s with Some r => Some (PyFloat "inf", r) | None =>
  match strip_prefix "-Infinity" s with Some r => Some (PyFloat "-inf", r) | None =>
  None end end end end end end end.

Definition expecting_value : exn := decode_error "Expecting value".
Definition expecting_comma : exn := decode_error "Expecting ',' delimiter".
Definition expecting_colon : exn := decode_error "Expecting ':' delimiter".
Definition expecting_name : exn :=
  decode_error "Expecting property name enclosed in double quotes".
Definition out_of_fuel : exn :=
  mkExn RecursionError "maximum recursion depth exceeded".

(** One value at the head of [s] and what follows it.  [scan_items] reads
    the items of an array from its first item on, [scan_members] the
    members of an object from its first key on; [seen] is what was read
    before.  A key met twice keeps its first place and its last value. *)
Fixpoint scan_once (fuel : nat) (s : string) : outcome (PyVal * string) :=
  match fuel with
  | O => Raise out_of_fuel
  | S f =>
      match s with
      | EmptyString => Raise expecting_value
      | String a r =>
          let n := nat_of_ascii a in
          if (n =? 34)%nat then
            match scanstring (String.length r) r [] with
            | Return (str, rest) => Return (PyStr str, rest)
            | Raise e => Raise e
            end
          else if (n =? 123)%nat then
            match skip_ws r with
            | String "}" rest => Return (PyDict [], rest)
            | r' => scan_members f r' []
            end
          else if (n =? 91)%nat then
            match skip_ws r with
            | String "]" rest => Return (PyList [], rest)
            | r' => scan_items f r' []
            end
          else
            match scan_literal s with
            | Some res => Return res
            | None => Raise expecting_value
            end
      end
  end
with scan_items (fuel : nat) (s : string) (seen : list PyVal)
  : outcome (PyVal * string) :=
  match fuel with
  | O => Raise out_of_fuel
  | S f =>
      match scan_once f s with
      | Raise e => Raise e
      | Return (v, rest) =>
          match skip_ws rest with
          | String "]" rest' => Return (PyList (seen ++ [v]), rest')
          | String "," rest' => scan_items f (skip_ws rest') (seen ++ [v])
          | _ => Raise expecting_comma
          end
      end
  end
with scan_members (fuel : nat) (s : string) (seen : list (string * PyVal))
  : outcome (PyVal * string) :=
  match fuel with
  | O => Raise out_of_fuel
  | S f =>
      match s with
      | EmptyString => Raise expecting_name
      | String a r =>
          if negb (nat_of_ascii a =? 34)%nat then Raise expecting_name else
          match scanstring (String.length r) r [] with
          | Raise e => Raise e
          | Return (key, rest) =>
              match skip_ws rest with
              | String ":" rest1 =>
                  match scan_once f (skip_ws rest1) with
                  | Raise e => Raise e
                  | Return (v, rest2) =>
                      match skip_ws rest2 with
                      | String "}" rest3 => Return (PyDict (dict_set seen key v), rest3)
                      | String "," rest3 =>
                          scan_members f (skip_ws rest3) (dict_set seen key v)
                      | _ => Raise expecting_comma
                      end
                  end
              | _ => Raise expecting_colon
              end
          end
      end
  end.

(** [json.loads(s)]: one value, white space allowed around it, nothing
    after it.  The fuel bounds the number of values and items read, twice
    the length of the text and two more; were it to run out, the outcome
    would be a raised exception like any other failure of the decoder. *)
Definition loads (s : string) : outcome PyVal :=
  match scan_once (2 * String.length s + 2) (skip_ws s) with
  | Raise e => Raise e
  | Return (v, rest) =>
      match skip_ws rest with
      | EmptyString => Return v
      | _ => Raise (decode_error "Extra data")
      end
  end.

End Json.

(** ** Computations that call the outside world

    A tool is a function from the trace so far to the trace it leaves and
    its outcome.  The trace lists, in program order, every call the tool
    makes to a collaborator; what the collaborator answers is given by the
    world the tool runs in. *)

Module Effects.
Import Py.

(** Modelled from the spec: the message model of [models.sockets], which is
    not part of the source at hand; the fields are the ones [_run] fills. *)
Record Message : Type := mkMessage {
  chunkId : string;
  text : PyVal;
  first : bool;
  tokens : Z;
  timestamp : PyVal;
  single : bool
}.

(** Modelled from the spec: the envelope model of [models.sockets]. *)
Record SocketMessage : Type := mkSocketMessage {
  room : string;
  authorName : string;
  message : Message;
  isFeedback : bool
}.

(** Modelled from the spec: the event names of [models.sockets]; [_run]
    uses [SocketEvents.MESSAGE] only. *)
Inductive SocketEvents : Type := MESSAGE.

Inductive event : Type :=
| LogException (e : exn)
| Print (line : string)
| Send (name : SocketEvents) (msg : SocketMessage) (mode : string)
| Receive
| Emit (name : string) (payload : PyVal)
| ArxivSearch (query : string) (max_results : Z) (sort_by : string)
| Request (method : string) (url : PyVal) (params : list (string * PyVal)).

Definition trace : Type := list event.

Definition M (A : Type) : Type := trace -> trace * outcome A.

Definition ret {A} (a : A) : M A := fun t => (t, Return a).

Definition bind {A B} (m : M A) (f : A -> M B) : M B :=
  fun t =>
    match m t with
    | (t', Return a) => f a t'
    | (t', Raise e) => (t', Raise e)
    end.

(** An answer of the outside world, or of a pure operation that may raise. *)
Definition lift {A} (o : outcome A) : M A := fun t => (t, o).

Definition tell (ev : event) : M unit := fun t => ((t ++ [ev])%list, Return tt).

(** A call to a collaborator: the call is recorded, then it answers. *)
Definition call {A} (ev : event) (answer : outcome A) : M A :=
  fun t => ((t ++ [ev])%list, answer).

(** [try: body  except <class>: handler], for the classes [catches] accepts. *)
Definition try_except {A} (body : M A) (catches : exn -> bool)
    (handler : exn -> M A) : M A :=
  fun t =>
    match body t with
    | (t', Return a) => (t', Return a)
    | (t', Raise e) => if catches e then handler e t' else (t', Raise e)
    end.

(** [except Exception]: every class of the model is below [Exception]. *)
Definition any_Exception (e : exn) : bool := true.

(** A call of a tool from an empty trace. *)
Definition run {A} (m : M A) : trace * outcome A := m [].

Definition calls {A} (m : M A) : trace := fst (run m).
Definition result {A} (m : M A) : outcome A := snd (run m).

Declare Scope py_scope.
Delimit Scope py_scope with py.
Notation "x <- m ;; k" := (bind m (fun x => k))
  (at level 61, m at next level, right associativity) : py_scope.
Notation "m ;;; k" := (bind m (fun _ => k))
  (at level 61, right associativity) : py_scope.

End Effects.

(** ** [class CustomHumanInput] *)

Module CustomHumanInput.
Import Py Effects.
Local Open Scope py_scope.

(** The socket client of [socketio]: what [receive()] answers and what
    [emit(name, payload)] answers.  One call of [_run] makes at most one
    call of each. *)
Record SimpleClient : Type := mkClient {
  receive : outcome PyVal;
  emit : string -> PyVal -> outcome unit
}.

(** What [_run] takes from outside the class: [str(uuid4())], the clock
    reading [datetime.now().timestamp() * 1000], the validation the models
    run when they are built, and [send] of [messaging], which is not part
    of the source at hand. *)
Record Env : Type := mkEnv {
  uuid4 : string;
  now_ms : PyVal;
  validate : SocketMessage -> outcome unit;
  send : SimpleClient -> SocketEvents -> SocketMessage -> string -> outcome unit
}.

Record self_t : Type := mkSelf {
  session_id : string;
  socket_client : SimpleClient
}.

(** [extract_message(text)] *)
Definition extract_message (text : PyVal) : M PyVal :=
  try_except
    (match text with
     | PyStr s =>
         if startswith s "{" then
           text_json <- lift (Json.loads s) ;;
           n <- lift (py_len text_json) ;;
           if (1 <? n)%nat then ret text
           else
             values <- lift (py_values text_json) ;;
             ret (next_not_None values PyNone)
         else ret text
     | _ => ret text
     end)
    any_Exception
    (fun e => tell (LogException e) ;;; ret text).

(** The envelope [_run] builds around the text to send. *)
Definition envelope (env : Env) (self : self_t) (msg_text : PyVal) : SocketMessage :=
  {| room := session_id self;
     authorName := "system";
     message := {| chunkId := uuid4 env;
                   text := msg_text;
                   first := true;
                   tokens := 1;
                   timestamp := now_ms env;
                   single := true |};
     isFeedback := true |}.

(** The payload of the error notification. *)
Definition timeout_notice (self : self_t) : PyVal :=
  PyDict [("room", PyStr (session_id self));
          ("type", PyStr "error");
          ("message", PyStr "TimeOutError")].

(** [_run(self, text)] *)
Definition _run (env : Env) (self : self_t) (text : PyVal) : M PyVal :=
  try_except
    (msg_text <- extract_message text ;;
     let msg := envelope env self msg_text in
     lift (validate env msg) ;;;
     call (Send MESSAGE msg "both") (send env (socket_client self) MESSAGE msg "both") ;;;
     feedback <- call Receive (receive (socket_client self)) ;;
     kind <- lift (py_getitem feedback 0) ;;
     if eq_str kind "terminate"
     then ret (PyStr " TERMINATE ALL TASKS IMMEDIATELY ")
     else lift (py_getitem feedback 1))
    is_TimeoutError
    (fun _ =>
       call (Emit "message" (timeout_notice self))
            (emit (socket_client self) "message" (timeout_notice self)) ;;;
       ret (PyStr "exit")).

End CustomHumanInput.

(** ** [class get_papers_from_arxiv] *)

Module get_papers_from_arxiv.
Import Py Effects.
Local Open Scope py_scope.

(** The [arxiv] package: importing it, building the search and iterating
    over [arxiv.Client().results(search)] either yields the titles of the
    results, in order, or raises somewhere on the way. *)
Record Arxiv : Type := mkArxiv {
  results : string -> Z -> string -> outcome (list string)
}.

Definition error_text (e : exn) : string := "An error occurred: " ++ exn_str e.

(** [_run(self, query)] *)
Definition _run (arxiv : Arxiv) (query : string) : M PyVal :=
  try_except
    (titles <- call (ArxivSearch query 10 "SubmittedDate")
                    (results arxiv query 10 "SubmittedDate") ;;
     ret (PyList (map PyStr titles)))
    any_Exception
    (fun e => tell (Print (error_text e)) ;;; ret (PyStr (error_text e))).

End get_papers_from_arxiv.

(** ** [class openapi_request] *)

Module openapi_request.
Import Py Effects.
Local Open Scope py_scope.

(** What a call of a function of [requests] hands back: its [status_code]
    and what [json()] answers. *)
Record Response : Type := mkResponse {
  status_code : Z;
  json : outcome PyVal
}.

(** The [requests] package: importing it and looking an attribute up by
    name either gives something to call or raises; calling it with a URL
    and [params] gives a response or raises. *)
Record Requests : Type := mkRequests {
  import_requests : outcome unit;
  getattr_requests : string -> outcome (PyVal -> list (string * PyVal) -> outcome Response)
}.

(** [kwargs.get(k)] *)
Definition kwargs_get (kwargs : list (string * PyVal)) (k : string) : PyVal :=
  match dict_get kwargs k with
  | Some v => v
  | None => PyNone
  end.

(** [kwargs.pop(k)], for what it leaves in [kwargs]. *)
Definition kwargs_pop (kwargs : list (string * PyVal)) (k : string)
  : outcome (list (string * PyVal)) :=
  match dict_get kwargs k with
  | Some _ => Return (dict_remove kwargs k)
  | None => Raise (mkExn KeyError (key_repr k))
  end.

(** [getattr(requests, name)] *)
Definition getattr (requests : Requests) (name : PyVal)
  : outcome (PyVal -> list (string * PyVal) -> outcome Response) :=
  match name with
  | PyStr s => getattr_requests requests s
  | _ => Raise (type_error "attribute name must be string")
  end.

Definition method_name (name : PyVal) : string :=
  match name with PyStr s => s | _ => EmptyString end.

(** [openapi_request], called with the keyword arguments [kwargs]. *)
Definition openapi_request (requests : Requests) (kwargs : list (string * PyVal))
  : M PyVal :=
  try_except
    (lift (import_requests requests) ;;;
     let base_url := kwargs_get kwargs "__baseurl" in
     let endpoint := kwargs_get kwargs "__path" in
     let name := kwargs_get kwargs "__method" in
     request_method <- lift (getattr requests name) ;;
     kwargs1 <- lift (kwargs_pop kwargs "__baseurl") ;;
     kwargs2 <- lift (kwargs_pop kwargs1 "__path") ;;
     kwargs3 <- lift (kwargs_pop kwargs2 "__method") ;;
     url <- lift (py_add base_url endpoint) ;;
     response <- call (Request (method_name name) url kwargs3)
                      (request_method url kwargs3) ;;
     if (status_code response =? 200)%Z
     then lift (json response)
     else ret PyNone)
    any_Exception
    (fun e => tell (Print ("An error occurred: " ++ exn_str e)) ;;; ret PyNone).

End openapi_request.

(** ** Inputs and worlds used in the examples *)

Module Samples.
Import Py Effects.

Definition dq : string := String (ascii_of_nat 34) EmptyString.

(** A JSON string literal: [s] between double quotes. *)
Definition quoted (s : string) : string := dq ++ s ++ dq.

(** The text [{"question": "hi"}]. *)
Definition question_hi : string :=
  "{" ++ quoted "question" ++ ": " ++ quoted "hi" ++ "}".

(** The text [{"a": "x", "b": "y"}]. *)
Definition two_keys : string :=
  "{" ++ quoted "a" ++ ": " ++ quoted "x" ++ ", "
      ++ quoted "b" ++ ": " ++ quoted "y" ++ "}".

(** The text [{"a": null}]. *)
Definition a_null : string := "{" ++ quoted "a" ++ ": null}".

(** The text [{}]. *)
Definition empty_object : string := "{}".

(** The text [{not json]. *)
Definition not_json : string := "{not json".

(** The text [ {"a": "x"}]: an object after one space. *)
Definition padded_object : string :=
  " {" ++ quoted "a" ++ ": " ++ quoted "x" ++ "}".

(** A world in which the models validate and [send] goes through. *)
Definition env0 : CustomHumanInput.Env :=
  {| CustomHumanInput.uuid4 := "0f8fad5b-d9cb-469f-a165-70867728950e";
     CustomHumanInput.now_ms := PyFloat "1700000000000.0";
     CustomHumanInput.validate := fun _ => Return tt;
     CustomHumanInput.send := fun _ _ _ _ => Return tt |}.

(** A client whose [receive()] answers [answer] and whose [emit] answers
    [emitted]. *)
Definition client (answer : outcome PyVal) (emitted : outcome unit)
  : CustomHumanInput.SimpleClient :=
  {| CustomHumanInput.receive := answer;
     CustomHumanInput.emit := fun _ _ => emitted |}.

Definition tool (c : CustomHumanInput.SimpleClient) : CustomHumanInput.self_t :=
  {| CustomHumanInput.session_id := "session-1";
     CustomHumanInput.socket_client := c |}.

Definition timed_out : exn := mkExn TimeoutError "timed out".
Definition disconnected : exn := mkExn ConnectionError "Already disconnected".

(** An HTTP library whose functions all answer [answer]. *)
Definition requests_answering (answer : outcome openapi_request.Response)
  : openapi_request.Requests :=
  {| openapi_request.import_requests := Return tt;
     openapi_request.getattr_requests := fun _ => Return (fun _ _ => answer) |}.

Definition get_users : list (string * PyVal) :=
  [("__baseurl", PyStr "https://api.example.org");
   ("__path", PyStr "/users");
   ("__method", PyStr "get");
   ("page", PyInt 2)].

End Samples.

(** ** Statements *)

Module Statements.
Import Py Effects.

Definition is_Emit (ev : event) : bool :=
  match ev with Emit _ _ => true | _ => false end.

Definition is_LogException (ev : event) : bool :=
  match ev with LogException _ => true | _ => false end.

(** A value that is not a [str] beginning with an opening brace. *)
Definition not_object_like (text : PyVal) : Prop :=
  forall s, text = PyStr s -> startswith s "{" = false.

(** The outcome is a returned [str]. *)
Definition returns_string (o : outcome PyVal) : Prop :=
  exists s, o = Return (PyStr s).

Definition terminate_all : PyVal := PyStr " TERMINATE ALL TASKS IMMEDIATELY ".

(** What [CustomHumanInput._run] does from the answer of [receive()] on,
    [t] being the calls made up to and including that one. *)
Definition after_receive (self : CustomHumanInput.self_t) (t : trace)
  : trace * outcome PyVal :=
  let c := CustomHumanInput.socket_client self in
  let notice := CustomHumanInput.timeout_notice self in
  match CustomHumanInput.receive c with
  | Return feedback =>
      (t, match py_getitem feedback 0 with
          | Return kind =>
              if eq_str kind "terminate" then Return terminate_all
              else py_getitem feedback 1
          | Raise e => Raise e
          end)
  | Raise e =>
      if is_TimeoutError e then
        ((t ++ [Emit "message" notice])%list,
         match CustomHumanInput.emit c "message" notice with
         | Return _ => Return (PyStr "exit")
         | Raise e' => Raise e'
         end)
      else (t, Raise e)
  end.

(** The timeout sentence of the specification, read as it stands: after a
    timeout of [receive()] there is one error notification, the result is
    ["exit"], and nothing is raised. *)
Definition timeout_claim (env : CustomHumanInput.Env)
    (self : CustomHumanInput.self_t) (text : PyVal) : Prop :=
  forall e,
    In Receive (calls (CustomHumanInput._run env self text)) ->
    CustomHumanInput.receive (CustomHumanInput.socket_client self) = Raise e ->
    is_TimeoutError e = true ->
    filter is_Emit (calls (CustomHumanInput._run env self text))
      = [Emit "message" (CustomHumanInput.timeout_notice self)] /\
    result (CustomHumanInput._run env self text) = Return (PyStr "exit").

(** The single-entry sentence of the specification, read as it stands:
    whenever the text parses to an object with one entry whose value is
    not [None], that value is returned. *)
Definition single_entry_claim (s : string) : Prop :=
  forall k v,
    Json.loads s = Return (PyDict [(k, v)]) ->
    v <> PyNone ->
    result (CustomHumanInput.extract_message (PyStr s)) = Return v.

(** The request of [openapi_request] went through and was answered by [r]. *)
Definition answered (requests : openapi_request.Requests)
    (kwargs : list (string * PyVal)) (r : openapi_request.Response) : Prop :=
  exists f k1 k2 k3 url,
    openapi_request.import_requests requests = Return tt /\
    openapi_request.getattr requests
      (openapi_request.kwargs_get kwargs "__method") = Return f /\
    openapi_request.kwargs_pop kwargs "__baseurl" = Return k1 /\
    openapi_request.kwargs_pop k1 "__path" = Return k2 /\
    openapi_request.kwargs_pop k2 "__method" = Return k3 /\
    py_add (openapi_request.kwargs_get kwargs "__baseurl")
           (openapi_request.kwargs_get kwargs "__path") = Return url /\
    f url k3 = Return r.

(** The error-handling sentence of the specification, read as it stands:
    whatever fails (the wait for the reply, the arXiv query, the HTTP
    request), the tool returns a string. *)
Definition every_failure_returns_text : Prop :=
  (forall env self text e,
     In Receive (calls (CustomHumanInput._run env self text)) ->
     CustomHumanInput.receive (CustomHumanInput.socket_client self) = Raise e ->
     returns_string (result (CustomHumanInput._run env self text))) /\
  (forall arxiv query e,
     get_papers_from_arxiv.results arxiv query 10 "SubmittedDate" = Raise e ->
     returns_string (result (get_papers_from_arxiv._run arxiv query))) /\
  (forall requests kwargs,
     (forall r, ~ answered requests kwargs r) ->
     returns_string (result (openapi_request.openapi_request requests kwargs))).

(** What the handler of [CustomHumanInput._run] does with an exception [e]
    raised in the [try] block, [t] being the calls made so far. *)
Definition timeout_handler (self : CustomHumanInput.self_t) (t : trace) (e : exn)
  : trace * outcome PyVal :=
  let c := CustomHumanInput.socket_client self in
  let notice := CustomHumanInput.timeout_notice self in
  if is_TimeoutError e then
    ((t ++ [Emit "message" notice])%list,
     match CustomHumanInput.emit c "message" notice with
     | Return _ => Return (PyStr "exit")
     | Raise e' => Raise e'
     end)
  else (t, Raise e).

(** The three keyword arguments [openapi_request] takes for itself. *)
Definition is_reserved (k : string) : bool :=
  String.eqb k "__baseurl" || String.eqb k "__path" || String.eqb k "__method".

(** The keyword arguments other than the reserved ones, in their order. *)
Definition forwarded (kwargs : list (string * PyVal)) : list (string * PyVal) :=
  filter (fun kv => negb (is_reserved (fst kv))) kwargs.

(** What [openapi_request] works out before it calls the HTTP library:
    the function to call, the URL and the parameters. *)
Definition prepared (requests : openapi_request.Requests)
    (kwargs : list (string * PyVal))
  : outcome ((PyVal -> list (string * PyVal) -> outcome openapi_request.Response)
             * PyVal * list (string * PyVal)) :=
  match openapi_request.import_requests requests with
  | Raise e => Raise e
  | Return _ =>
  match openapi_request.getattr requests
          (openapi_request.kwargs_get kwargs "__method") with
  | Raise e => Raise e
  | Return f =>
  match openapi_request.kwargs_pop kwargs "__baseurl" with
  | Raise e => Raise e
  | Return k1 =>
  match openapi_request.kwargs_pop k1 "__path" with
  | Raise e => Raise e
  | Return k2 =>
  match openapi_request.kwargs_pop k2 "__method" with
  | Raise e => Raise e
  | Return k3 =>
  match py_add (openapi_request.kwargs_get kwargs "__baseurl")
               (openapi_request.kwargs_get kwargs "__path") with
  | Raise e => Raise e
  | Return url => Return (f, url, k3)
  end end end end end end.

Definition is_Request (ev : event) : bool :=
  match ev with Request _ _ _ => true | _ => false end.

Definition is_Print (ev : event) : bool :=
  match ev with Print _ => true | _ => false end.

End Statements.

(** * Properties *)

Import Py Effects Statements.

(** ** [extract_message] *)

Section ExtractMessage.
Import CustomHumanInput.

Lemma extract_message_plain (text : PyVal) (t : trace) :
  not_object_like text -> extract_message text t = (t, Return text).
Proof.
  intros H. unfold extract_message, try_except.
  destruct text; try reflexivity.
  rewrite (H s eq_refl). reflexivity.
Qed.

Lemma extract_message_dict (s : string) (d : list (string * PyVal)) (t : trace) :
  startswith s "{" = true ->
  Json.loads s = Return (PyDict d) ->
  extract_message (PyStr s) t =
    (t, Return (if (1 <? length d)%nat then PyStr s
                else next_not_None (map snd d) PyNone)).
Proof.
  intros Hs Hd. unfold extract_message, try_except, bind, lift.
  rewrite Hs, Hd. simpl.
  destruct (1 <? length d)%nat; reflexivity.
Qed.

Lemma extract_message_raise (s : string) (e : exn) (t : trace) :
  startswith s "{" = true ->
  Json.loads s = Raise e ->
  extract_message (PyStr s) t = ((t ++ [LogException e])%list, Return (PyStr s)).
Proof.
  intros Hs He. unfold extract_message, try_except, bind, lift.
  rewrite Hs, He. reflexivity.
Qed.

(** [extract_message] returns on every input, and all it adds to the
    trace is at most one logged exception. *)
Lemma extract_message_returns (text : PyVal) (t : trace) :
  exists v log,
    extract_message text t = ((t ++ log)%list, Return v) /\
    (log = [] \/ exists e, log = [LogException e]).
Proof.
  assert (Hnil : forall v, (t, Return v) = ((t ++ [])%list, @Return PyVal v))
    by (intros; rewrite app_nil_r; reflexivity).
  unfold extract_message, try_except, bind, lift, ret, tell, any_Exception.
  destruct text; try (eexists; exists []; split; [apply Hnil | left; reflexivity]).
  destruct (startswith s "{");
    [| eexists; exists []; split; [apply Hnil | left; reflexivity]].
  destruct (Json.loads s) as [v | e];
    [| eexists; eexists; split; [reflexivity | right; eexists; reflexivity]].
  destruct (py_len v) as [n | e];
    [| eexists; eexists; split; [reflexivity | right; eexists; reflexivity]].
  destruct (1 <? n)%nat;
    [eexists; exists []; split; [apply Hnil | left; reflexivity] |].
  destruct (py_values v) as [vs | e];
    [| eexists; eexists; split; [reflexivity | right; eexists; reflexivity]].
  eexists; exists []; split; [apply Hnil | left; reflexivity].
Qed.

End ExtractMessage.

Section ExtractMessageClaims.
Import CustomHumanInput Samples.

(** C4 (as amended).  For every string that begins with an opening brace
    and parses to a JSON object with exactly one entry whose value is not
    null, [extract_message] returns that value and logs nothing; in
    particular it returns ["hi"] for the text [{"question": "hi"}]. *)
Theorem extract_message_single_entry :
  (forall s k v,
     startswith s "{" = true ->
     Json.loads s = Return (PyDict [(k, v)]) ->
     v <> PyNone ->
     run (extract_message (PyStr s)) = ([], Return v)) /\
  run (extract_message (PyStr question_hi)) = ([], Return (PyStr "hi")).
Proof.
  assert (H : forall s k v,
             startswith s "{" = true ->
             Json.loads s = Return (PyDict [(k, v)]) ->
             v <> PyNone ->
             run (extract_message (PyStr s)) = ([], Return v)).
  { intros s k v Hs Hd Hv. unfold run.
    rewrite (extract_message_dict s [(k, v)] [] Hs Hd). simpl.
    destruct v; reflexivity. }
  split; [exact H |].
  apply (H question_hi "question" (PyStr "hi")).
  - reflexivity.
  - vm_compute. reflexivity.
  - discriminate.
Qed.

Lemma extract_message_single_entry_witness :
  startswith ("{" ++ quoted "message" ++ ": 42}") "{" = true /\
  Json.loads ("{" ++ quoted "message" ++ ": 42}")
    = Return (PyDict [("message", PyInt 42)]) /\
  PyInt 42 <> PyNone /\
  run (extract_message (PyStr ("{" ++ quoted "message" ++ ": 42}")))
    = ([], Return (PyInt 42)).
Proof.
  split; [reflexivity |].
  split; [vm_compute; reflexivity |].
  split; [discriminate |].
  apply (proj1 extract_message_single_entry
           ("{" ++ quoted "message" ++ ": 42}") "message" (PyInt 42)).
  - reflexivity.
  - vm_compute. reflexivity.
  - discriminate.
Defined.

(** C4, the claim as written, fails on a string that does not begin with
    the brace: [ {"a": "x"}] parses to an object whose single entry has
    the value ["x"], and [extract_message] returns the text itself. *)
Lemma extract_message_single_entry_padded :
  Json.loads padded_object = Return (PyDict [("a", PyStr "x")]) /\
  PyStr "x" <> PyNone /\
  run (extract_message (PyStr padded_object)) = ([], Return (PyStr padded_object)) /\
  result (extract_message (PyStr padded_object)) <> Return (PyStr "x") /\
  ~ single_entry_claim padded_object.
Proof.
  assert (Hl : Json.loads padded_object = Return (PyDict [("a", PyStr "x")]))
    by (vm_compute; reflexivity).
  assert (Hr : result (extract_message (PyStr padded_object)) <> Return (PyStr "x"))
    by (vm_compute; discriminate).
  split; [exact Hl |].
  split; [discriminate |].
  split; [vm_compute; reflexivity |].
  split; [exact Hr |].
  intros C. apply Hr. apply (C "a" (PyStr "x") Hl). discriminate.
Qed.

(** C5.  For every string that parses to a JSON object with more than one
    entry, [extract_message] returns the string itself, unchanged, and
    logs nothing; in particular for the text [{"a": "x", "b": "y"}]. *)
Theorem extract_message_many_entries :
  (forall s d,
     Json.loads s = Return (PyDict d) ->
     (1 < length d)%nat ->
     run (extract_message (PyStr s)) = ([], Return (PyStr s))) /\
  run (extract_message (PyStr two_keys)) = ([], Return (PyStr two_keys)).
Proof.
  assert (H : forall s d,
             Json.loads s = Return (PyDict d) ->
             (1 < length d)%nat ->
             run (extract_message (PyStr s)) = ([], Return (PyStr s))).
  { intros s d Hd Hlen. unfold run.
    destruct (startswith s "{") eqn:Hs.
    - rewrite (extract_message_dict s d [] Hs Hd).
      apply Nat.ltb_lt in Hlen. rewrite Hlen. reflexivity.
    - apply extract_message_plain. intros s' E. injection E as <-. exact Hs. }
  split; [exact H |].
  apply (H two_keys [("a", PyStr "x"); ("b", PyStr "y")]).
  - vm_compute. reflexivity.
  - simpl. lia.
Qed.

Lemma extract_message_many_entries_witness :
  Json.loads two_keys = Return (PyDict [("a", PyStr "x"); ("b", PyStr "y")]) /\
  (1 < length [("a", PyStr "x"); ("b", PyStr "y")])%nat /\
  run (extract_message (PyStr two_keys)) = ([], Return (PyStr two_keys)).
Proof.
  split; [vm_compute; reflexivity |].
  split; [simpl; lia |].
  apply (proj1 extract_message_many_entries two_keys
           [("a", PyStr "x"); ("b", PyStr "y")]).
  - vm_compute. reflexivity.
  - simpl. lia.
Defined.

(** C6.  On a value that is not a string beginning with an opening brace,
    [extract_message] returns the value unchanged; on a string beginning
    with the brace whose parse raises, it logs the exception and returns
    the string unchanged; in neither case, nor in any other, does it
    raise. *)
Theorem extract_message_fails_open :
  (forall text,
     not_object_like text ->
     run (extract_message text) = ([], Return text)) /\
  (forall s e,
     startswith s "{" = true ->
     Json.loads s = Raise e ->
     run (extract_message (PyStr s)) = ([LogException e], Return (PyStr s))) /\
  (forall text, exists v, result (extract_message text) = Return v).
Proof.
  split; [| split].
  - intros text H. apply extract_message_plain. exact H.
  - intros s e Hs He. apply (extract_message_raise s e [] Hs He).
  - intros text. unfold result, run.
    destruct (extract_message_returns text []) as (v & log & E & _).
    exists v. rewrite E. reflexivity.
Qed.

Lemma extract_message_fails_open_witness :
  (not_object_like (PyStr "plain words") /\
   run (extract_message (PyStr "plain words")) = ([], Return (PyStr "plain words"))) /\
  (not_object_like PyNone /\
   run (extract_message PyNone) = ([], Return PyNone)) /\
  (startswith not_json "{" = true /\
   Json.loads not_json = Raise Json.expecting_name /\
   run (extract_message (PyStr not_json))
     = ([LogException Json.expecting_name], Return (PyStr not_json))).
Proof.
  assert (H1 : not_object_like (PyStr "plain words"))
    by (intros s E; injection E as <-; reflexivity).
  assert (H2 : not_object_like PyNone) by (intros s E; discriminate E).
  assert (H3 : Json.loads not_json = Raise Json.expecting_name)
    by (vm_compute; reflexivity).
  split; [split; [exact H1 |] | split; [split; [exact H2 |] | split; [reflexivity | split; [exact H3 |]]]].
  - apply (proj1 extract_message_fails_open _ H1).
  - apply (proj1 extract_message_fails_open _ H2).
  - apply (proj1 (proj2 extract_message_fails_open) not_json _ eq_refl H3).
Defined.

(** C7.  For the text [{"a": null}], an object whose single entry has the
    value null, [extract_message] returns [None]. *)
Theorem extract_message_single_null :
  Json.loads a_null = Return (PyDict [("a", PyNone)]) /\
  run (extract_message (PyStr a_null)) = ([], Return PyNone).
Proof.
  split; vm_compute; reflexivity.
Qed.

(** C9.  For the text [{}], an object with no entry, [extract_message]
    returns [None], not the text. *)
Theorem extract_message_empty_object :
  Json.loads empty_object = Return (PyDict []) /\
  run (extract_message (PyStr empty_object)) = ([], Return PyNone).
Proof.
  split; vm_compute; reflexivity.
Qed.

End ExtractMessageClaims.

(** ** [CustomHumanInput._run] *)

Section HumanInput.
Import CustomHumanInput Samples.

Lemma not_Receive_in_log (log : trace) :
  log = [] \/ (exists e, log = [LogException e]) -> ~ In Receive log.
Proof.
  intros [-> | [e ->]] H; simpl in H.
  - exact H.
  - destruct H as [H | H]; [discriminate H | exact H].
Qed.

Lemma no_Emit_in_log (log : trace) :
  log = [] \/ (exists e, log = [LogException e]) -> filter is_Emit log = [].
Proof.
  intros [-> | [e ->]]; reflexivity.
Qed.

(** An index error or a type error of [feedback[i]] is not a timeout. *)
Lemma py_getitem_not_timeout (v : PyVal) (i : nat) (e : exn) :
  py_getitem v i = Raise e -> is_TimeoutError e = false.
Proof.
  destruct v; simpl; unfold seq_item;
    try (intros H; injection H as <-; reflexivity).
  - destruct (str_item s i); intros H; [discriminate H | injection H as <-; reflexivity].
  - destruct (nth_error items i); intros H; [discriminate H | injection H as <-; reflexivity].
  - destruct (nth_error items i); intros H; [discriminate H | injection H as <-; reflexivity].
Qed.

(** [H] puts [Receive] in a trace made of the log of [extract_message]
    and of calls other than [receive()]: there is no such trace. *)
Ltac no_receive H Hlog :=
  repeat (apply in_app_or in H; destruct H as [H | H]);
  try (exact (not_Receive_in_log _ Hlog H));
  simpl in H; intuition discriminate.

(** Once [_run] has called [receive()], the request was built, validated
    and sent, and the rest of the call is [after_receive]. *)
Lemma run_reaches_receive (env : Env) (self : self_t) (text : PyVal) :
  In Receive (calls (_run env self text)) ->
  exists log msg,
    (log = [] \/ exists e, log = [LogException e]) /\
    run (_run env self text)
      = after_receive self (log ++ [Send MESSAGE msg "both"; Receive])%list.
Proof.
  unfold calls, run, _run, try_except, bind, lift, call, ret.
  destruct (extract_message_returns text []) as (v & log & E & Hlog).
  rewrite E. simpl app.
  set (msg := envelope env self v).
  set (c := socket_client self).
  destruct (validate env msg) as [[] | e1].
  2:{ intros H. exfalso.
      destruct (is_TimeoutError e1);
        [destruct (emit c "message" (timeout_notice self)) |];
        simpl in H; no_receive H Hlog. }
  destruct (send env c MESSAGE msg "both") as [[] | e2].
  2:{ intros H. exfalso.
      destruct (is_TimeoutError e2);
        [destruct (emit c "message" (timeout_notice self)) |];
        simpl in H; no_receive H Hlog. }
  intros _. exists log, msg. split; [exact Hlog |].
  unfold after_receive. fold c.
  rewrite <- app_assoc. simpl app.
  destruct (receive c) as [feedback | e3].
  2:{ destruct (is_TimeoutError e3); [| reflexivity].
      destruct (emit c "message" (timeout_notice self)); reflexivity. }
  destruct (py_getitem feedback 0) as [kind | e4] eqn:E0.
  - destruct (eq_str kind "terminate"); [reflexivity |].
    destruct (py_getitem feedback 1) as [payload | e5] eqn:E1; [reflexivity |].
    rewrite (py_getitem_not_timeout _ _ _ E1). reflexivity.
  - rewrite (py_getitem_not_timeout _ _ _ E0). reflexivity.
Qed.

(** C1.  For every two-element reply that [_run] receives after it has
    published the feedback request: when the first element equals
    ["terminate"] the result is the sentinel
    [" TERMINATE ALL TASKS IMMEDIATELY "], whatever the second element is,
    and otherwise the result is the second element. *)
Theorem run_returns_reply (env : Env) (self : self_t) (text : PyVal)
    (kind payload reply : PyVal) :
  reply = PyList [kind; payload] \/ reply = PyTuple [kind; payload] ->
  In Receive (calls (_run env self text)) ->
  receive (socket_client self) = Return reply ->
  result (_run env self text)
    = Return (if eq_str kind "terminate"
              then PyStr " TERMINATE ALL TASKS IMMEDIATELY "
              else payload).
Proof.
  intros Hreply Hcall Hrecv.
  destruct (run_reaches_receive env self text Hcall) as (log & msg & _ & E).
  unfold result. rewrite E. unfold after_receive. rewrite Hrecv.
  destruct Hreply as [-> | ->]; simpl;
    destruct (eq_str kind "terminate"); reflexivity.
Qed.

Lemma run_returns_reply_witness :
  (In Receive (calls (_run env0
       (tool (client (Return (PyTuple [PyStr "terminate"; PyInt 7])) (Return tt)))
       (PyStr "Shall I go on?"))) /\
   result (_run env0
       (tool (client (Return (PyTuple [PyStr "terminate"; PyInt 7])) (Return tt)))
       (PyStr "Shall I go on?"))
     = Return (PyStr " TERMINATE ALL TASKS IMMEDIATELY ")) /\
  (In Receive (calls (_run env0
       (tool (client (Return (PyList [PyStr "ok"; PyStr "yes"])) (Return tt)))
       (PyStr question_hi))) /\
   result (_run env0
       (tool (client (Return (PyList [PyStr "ok"; PyStr "yes"])) (Return tt)))
       (PyStr question_hi))
     = Return (PyStr "yes")).
Proof.
  split; split.
  - vm_compute. right. left. reflexivity.
  - apply (run_returns_reply env0
             (tool (client (Return (PyTuple [PyStr "terminate"; PyInt 7])) (Return tt)))
             (PyStr "Shall I go on?") (PyStr "terminate") (PyInt 7)
             (PyTuple [PyStr "terminate"; PyInt 7])).
    + right. reflexivity.
    + vm_compute. right. left. reflexivity.
    + reflexivity.
  - vm_compute. right. left. reflexivity.
  - apply (run_returns_reply env0
             (tool (client (Return (PyList [PyStr "ok"; PyStr "yes"])) (Return tt)))
             (PyStr question_hi) (PyStr "ok") (PyStr "yes")
             (PyList [PyStr "ok"; PyStr "yes"])).
    + left. reflexivity.
    + vm_compute. right. left. reflexivity.
    + reflexivity.
Defined.

(** C2 (as amended).  When [receive()] raises a [TimeoutError], [_run]
    calls [emit] exactly once, on the event ["message"] with the payload
    [{room: session id, type: "error", message: "TimeOutError"}]; when
    that call returns, [_run] returns ["exit"]; when that call raises, its
    exception is the outcome of [_run]. *)
Theorem run_timeout (env : Env) (self : self_t) (text : PyVal) (e : exn) :
  In Receive (calls (_run env self text)) ->
  receive (socket_client self) = Raise e ->
  is_TimeoutError e = true ->
  filter is_Emit (calls (_run env self text))
    = [Emit "message"
         (PyDict [("room", PyStr (session_id self));
                  ("type", PyStr "error");
                  ("message", PyStr "TimeOutError")])] /\
  result (_run env self text)
    = match emit (socket_client self) "message"
              (PyDict [("room", PyStr (session_id self));
                       ("type", PyStr "error");
                       ("message", PyStr "TimeOutError")]) with
      | Return _ => Return (PyStr "exit")
      | Raise e' => Raise e'
      end.
Proof.
  intros Hcall Hrecv Htimeout.
  destruct (run_reaches_receive env self text Hcall) as (log & msg & Hlog & E).
  unfold calls, result. rewrite E. unfold after_receive.
  rewrite Hrecv, Htimeout. simpl fst. simpl snd. split; [| reflexivity].
  rewrite !filter_app, (no_Emit_in_log log Hlog). reflexivity.
Qed.

Lemma run_timeout_witness :
  In Receive (calls (_run env0 (tool (client (Raise timed_out) (Return tt)))
                          (PyStr "Shall I go on?"))) /\
  is_TimeoutError timed_out = true /\
  filter is_Emit (calls (_run env0 (tool (client (Raise timed_out) (Return tt)))
                              (PyStr "Shall I go on?")))
    = [Emit "message"
         (PyDict [("room", PyStr "session-1");
                  ("type", PyStr "error");
                  ("message", PyStr "TimeOutError")])] /\
  result (_run env0 (tool (client (Raise timed_out) (Return tt)))
               (PyStr "Shall I go on?"))
    = Return (PyStr "exit").
Proof.
  split; [vm_compute; right; left; reflexivity |].
  split; [reflexivity |].
  apply (run_timeout env0 (tool (client (Raise timed_out) (Return tt)))
           (PyStr "Shall I go on?") timed_out).
  - vm_compute. right. left. reflexivity.
  - reflexivity.
  - reflexivity.
Defined.

(** C2, the claim as written, fails when the notification cannot be sent:
    with a client whose [receive()] times out and whose [emit] raises,
    [_run] raises the exception of [emit] and does not return ["exit"]. *)
Lemma run_timeout_emit_raises :
  In Receive (calls (_run env0 (tool (client (Raise timed_out) (Raise disconnected)))
                          (PyStr "Shall I go on?"))) /\
  is_TimeoutError timed_out = true /\
  run (_run env0 (tool (client (Raise timed_out) (Raise disconnected)))
            (PyStr "Shall I go on?"))
    = ([Send MESSAGE
          (envelope env0 (tool (client (Raise timed_out) (Raise disconnected)))
                    (PyStr "Shall I go on?")) "both";
        Receive;
        Emit "message" (PyDict [("room", PyStr "session-1");
                                ("type", PyStr "error");
                                ("message", PyStr "TimeOutError")])],
       Raise disconnected) /\
  ~ timeout_claim env0 (tool (client (Raise timed_out) (Raise disconnected)))
                  (PyStr "Shall I go on?").
Proof.
  split; [vm_compute; right; left; reflexivity |].
  split; [reflexivity |].
  split; [vm_compute; reflexivity |].
  intros C.
  destruct (C timed_out) as [_ H].
  - vm_compute. right. left. reflexivity.
  - reflexivity.
  - reflexivity.
  - vm_compute in H. discriminate H.
Qed.

End HumanInput.

(** ** [get_papers_from_arxiv._run] and [openapi_request] *)

Section Siblings.
Import Samples.

Lemma dict_get_remove_other (d : list (string * PyVal)) (k k' : string) :
  String.eqb k k' = false ->
  dict_get (dict_remove d k) k' = dict_get d k'.
Proof.
  intros Hk. induction d as [| [k0 v0] d IH]; simpl; [reflexivity |].
  destruct (String.eqb k0 k) eqn:E0.
  - apply String.eqb_eq in E0. subst k0. rewrite Hk. reflexivity.
  - simpl. rewrite IH. reflexivity.
Qed.

(** The three keys are needed for the request to go through. *)
Lemma answered_has_keys requests kwargs r :
  answered requests kwargs r ->
  dict_get kwargs "__baseurl" <> None /\
  dict_get kwargs "__path" <> None /\
  dict_get kwargs "__method" <> None.
Proof.
  intros (f & k1 & k2 & k3 & url & _ & _ & H1 & H2 & H3 & _ & _).
  unfold openapi_request.kwargs_pop in H1, H2, H3.
  destruct (dict_get kwargs "__baseurl") eqn:E1; [| discriminate H1].
  injection H1 as <-.
  rewrite dict_get_remove_other in H2 by reflexivity.
  destruct (dict_get kwargs "__path") eqn:E2; [| discriminate H2].
  injection H2 as <-.
  rewrite !dict_get_remove_other in H3 by reflexivity.
  destruct (dict_get kwargs "__method") eqn:E3; [| discriminate H3].
  repeat split; discriminate.
Qed.

(** [openapi_request] ends in one of two ways: the request was answered
    with status 200 and a body that parses, and that body is the result;
    or the result is [None]. *)
Lemma openapi_request_cases requests kwargs :
  (exists r v,
     answered requests kwargs r /\
     openapi_request.status_code r = 200%Z /\
     openapi_request.json r = Return v /\
     result (openapi_request.openapi_request requests kwargs) = Return v) \/
  ((forall r v, answered requests kwargs r ->
                openapi_request.status_code r = 200%Z ->
                openapi_request.json r = Return v -> False) /\
   result (openapi_request.openapi_request requests kwargs) = Return PyNone).
Proof.
  unfold result, run, openapi_request.openapi_request, try_except, bind, lift,
    call, ret, tell, any_Exception, answered.
  destruct (openapi_request.import_requests requests) as [[] | e0] eqn:E0;
    [| right; split; [intros r v (f & k1 & k2 & k3 & url & H & _); discriminate H | reflexivity]].
  destruct (openapi_request.getattr requests _) as [f | e1] eqn:E1;
    [| right; split;
       [intros r v (f & k1 & k2 & k3 & url & _ & H & _); discriminate H | reflexivity]].
  destruct (openapi_request.kwargs_pop kwargs "__baseurl") as [k1 | e2] eqn:E2;
    [| right; split;
       [intros r v (f' & k1 & k2 & k3 & url & _ & _ & H & _); discriminate H
       | reflexivity]].
  destruct (openapi_request.kwargs_pop k1 "__path") as [k2 | e3] eqn:E3;
    [| right; split;
       [intros r v (f' & k1' & k2 & k3 & url & _ & _ & H1 & H & _);
        injection H1 as <-; rewrite E3 in H; discriminate H
       | reflexivity]].
  destruct (openapi_request.kwargs_pop k2 "__method") as [k3 | e4] eqn:E4;
    [| right; split;
       [intros r v (f' & k1' & k2' & k3 & url & _ & _ & H1 & H2 & H & _);
        injection H1 as <-; rewrite E3 in H2; injection H2 as <-;
        rewrite E4 in H; discriminate H
       | reflexivity]].
  destruct (py_add _ _) as [url | e5] eqn:E5;
    [| right; split;
       [intros r v (f' & k1' & k2' & k3' & url & _ & _ & _ & _ & _ & H & _);
        discriminate H
       | reflexivity]].
  simpl.
  destruct (f url k3) as [r | e6] eqn:E6.
  - destruct (openapi_request.status_code r =? 200)%Z eqn:Es.
    + destruct (openapi_request.json r) as [v | e7] eqn:E7.
      * left. exists r, v. apply Z.eqb_eq in Es.
        split; [exists f, k1, k2, k3, url; repeat split; assumption |].
        repeat split; assumption.
      * right. split; [| reflexivity].
        intros r' v (f' & k1' & k2' & k3' & url' & _ & Hf & H1 & H2 & H3 & H4 & H5) _ Hj.
        injection Hf as <-. injection H1 as <-. rewrite E3 in H2. injection H2 as <-.
        rewrite E4 in H3. injection H3 as <-. injection H4 as <-.
        rewrite E6 in H5. injection H5 as <-. rewrite E7 in Hj. discriminate Hj.
    + right. split; [| reflexivity].
      intros r' v (f' & k1' & k2' & k3' & url' & _ & Hf & H1 & H2 & H3 & H4 & H5) Hs _.
      injection Hf as <-. injection H1 as <-. rewrite E3 in H2. injection H2 as <-.
      rewrite E4 in H3. injection H3 as <-. injection H4 as <-.
      rewrite E6 in H5. injection H5 as <-.
      rewrite Hs in Es. discriminate Es.
  - right. split; [| reflexivity].
    intros r' v (f' & k1' & k2' & k3' & url' & _ & Hf & H1 & H2 & H3 & H4 & H5) _ _.
    injection Hf as <-. injection H1 as <-. rewrite E3 in H2. injection H2 as <-.
    rewrite E4 in H3. injection H3 as <-. injection H4 as <-.
    rewrite E6 in H5. discriminate H5.
Qed.

(** The answer of a request is unique. *)
Lemma answered_unique requests kwargs r r' :
  answered requests kwargs r -> answered requests kwargs r' -> r = r'.
Proof.
  intros (f & k1 & k2 & k3 & url & _ & Hf & H1 & H2 & H3 & H4 & H5)
         (f' & k1' & k2' & k3' & url' & _ & Hf' & H1' & H2' & H3' & H4' & H5').
  rewrite Hf in Hf'. injection Hf' as <-.
  rewrite H1 in H1'. injection H1' as <-.
  rewrite H2 in H2'. injection H2' as <-.
  rewrite H3 in H3'. injection H3' as <-.
  rewrite H4 in H4'. injection H4' as <-.
  rewrite H5 in H5'. injection H5' as <-. reflexivity.
Qed.

(** [openapi_request] raises nothing. *)
Lemma openapi_request_returns requests kwargs :
  exists v, result (openapi_request.openapi_request requests kwargs) = Return v.
Proof.
  destruct (openapi_request_cases requests kwargs) as [(r & v & _ & _ & _ & H) | [_ H]];
    eexists; exact H.
Qed.

(** C3 (as amended).  In [get_papers_from_arxiv._run] every exception is
    caught, printed and turned into the string ["An error occurred: "]
    followed by its message.  [openapi_request] catches every exception
    too and raises nothing.  [CustomHumanInput._run] handles a
    [TimeoutError] only: any other exception raised while it waits for the
    reply is the outcome of the call. *)
Theorem failures_by_tool :
  (forall arxiv query e,
     get_papers_from_arxiv.results arxiv query 10 "SubmittedDate" = Raise e ->
     run (get_papers_from_arxiv._run arxiv query)
       = ([ArxivSearch query 10 "SubmittedDate";
           Print ("An error occurred: " ++ exn_str e)],
          Return (PyStr ("An error occurred: " ++ exn_str e)))) /\
  (forall requests kwargs,
     exists v, result (openapi_request.openapi_request requests kwargs) = Return v) /\
  (forall env self text e,
     In Receive (calls (CustomHumanInput._run env self text)) ->
     CustomHumanInput.receive (CustomHumanInput.socket_client self) = Raise e ->
     is_TimeoutError e = false ->
     result (CustomHumanInput._run env self text) = Raise e).
Proof.
  split; [| split].
  - intros arxiv query e H.
    unfold run, get_papers_from_arxiv._run, try_except, bind, call, tell, ret.
    rewrite H. reflexivity.
  - exact openapi_request_returns.
  - intros env self text e Hcall Hrecv Hno.
    destruct (run_reaches_receive env self text Hcall) as (log & msg & _ & E).
    unfold result. rewrite E. unfold after_receive. rewrite Hrecv, Hno. reflexivity.
Qed.

Lemma failures_by_tool_witness :
  run (get_papers_from_arxiv._run
         (get_papers_from_arxiv.mkArxiv (fun _ _ _ => Raise disconnected))
         "graph neural networks")
    = ([ArxivSearch "graph neural networks" 10 "SubmittedDate";
        Print "An error occurred: Already disconnected"],
       Return (PyStr "An error occurred: Already disconnected")) /\
  In Receive (calls (CustomHumanInput._run env0
                       (tool (client (Raise disconnected) (Return tt)))
                       (PyStr "Shall I go on?"))) /\
  is_TimeoutError disconnected = false /\
  result (CustomHumanInput._run env0
            (tool (client (Raise disconnected) (Return tt)))
            (PyStr "Shall I go on?"))
    = Raise disconnected.
Proof.
  split.
  - apply (proj1 failures_by_tool
             (get_papers_from_arxiv.mkArxiv (fun _ _ _ => Raise disconnected))
             "graph neural networks" disconnected).
    reflexivity.
  - split; [vm_compute; right; left; reflexivity |].
    split; [reflexivity |].
    apply (proj2 (proj2 failures_by_tool) env0
             (tool (client (Raise disconnected) (Return tt)))
             (PyStr "Shall I go on?") disconnected).
    + vm_compute. right. left. reflexivity.
    + reflexivity.
    + reflexivity.
Defined.

(** C3, the claim as written, fails twice: an exception of [receive()]
    that is not a timeout leaves [CustomHumanInput._run] as that
    exception, and a request of [openapi_request] that raises makes it
    return [None], which is no string. *)
Lemma failure_without_text :
  run (CustomHumanInput._run env0
         (tool (client (Raise disconnected) (Return tt)))
         (PyStr "Shall I go on?"))
    = ([Send MESSAGE
          (CustomHumanInput.envelope env0
             (tool (client (Raise disconnected) (Return tt)))
             (PyStr "Shall I go on?")) "both";
        Receive],
       Raise disconnected) /\
  run (openapi_request.openapi_request
         (requests_answering (Raise disconnected)) get_users)
    = ([Request "get" (PyStr "https://api.example.org/users") [("page", PyInt 2)];
        Print "An error occurred: Already disconnected"],
       Return PyNone) /\
  ~ every_failure_returns_text.
Proof.
  split; [vm_compute; reflexivity |].
  split; [vm_compute; reflexivity |].
  intros (C & _ & _).
  destruct (C env0 (tool (client (Raise disconnected) (Return tt)))
              (PyStr "Shall I go on?") disconnected) as [s H].
  - vm_compute. right. left. reflexivity.
  - reflexivity.
  - vm_compute in H. discriminate H.
Qed.

(** C8.  When the arXiv query succeeds, [get_papers_from_arxiv._run]
    returns the list of the titles it collected; the result is a list and
    not a string. *)
Theorem arxiv_success_returns_list :
  forall (query : string) (titles : list string),
    run (get_papers_from_arxiv._run
           (get_papers_from_arxiv.mkArxiv (fun _ _ _ => Return titles)) query)
      = ([ArxivSearch query 10 "SubmittedDate"],
         Return (PyList (map PyStr titles))) /\
    ~ returns_string
        (result (get_papers_from_arxiv._run
                   (get_papers_from_arxiv.mkArxiv (fun _ _ _ => Return titles)) query)).
Proof.
  intros query titles. split; [reflexivity |].
  intros [s H]. discriminate H.
Qed.

(** C10.  [openapi_request] returns the parsed JSON body when the request
    is answered with status 200; in every other case (another status, an
    exception raised on the way, one of [__baseurl], [__path], [__method]
    missing among the keyword arguments) it returns [None]; it never
    raises. *)
Theorem openapi_request_result requests kwargs :
  (forall r v,
     answered requests kwargs r ->
     openapi_request.status_code r = 200%Z ->
     openapi_request.json r = Return v ->
     result (openapi_request.openapi_request requests kwargs) = Return v) /\
  (forall r,
     answered requests kwargs r ->
     openapi_request.status_code r <> 200%Z ->
     result (openapi_request.openapi_request requests kwargs) = Return PyNone) /\
  (forall r e,
     answered requests kwargs r ->
     openapi_request.json r = Raise e ->
     result (openapi_request.openapi_request requests kwargs) = Return PyNone) /\
  ((forall r, ~ answered requests kwargs r) ->
   result (openapi_request.openapi_request requests kwargs) = Return PyNone) /\
  (dict_get kwargs "__baseurl" = None \/
   dict_get kwargs "__path" = None \/
   dict_get kwargs "__method" = None ->
   result (openapi_request.openapi_request requests kwargs) = Return PyNone) /\
  (exists v, result (openapi_request.openapi_request requests kwargs) = Return v).
Proof.
  pose proof (openapi_request_cases requests kwargs) as Hc.
  assert (Hnone : (forall r, ~ answered requests kwargs r) ->
                  result (openapi_request.openapi_request requests kwargs)
                    = Return PyNone).
  { intros Hn. destruct Hc as [(r & v & Ha & _) | [_ H]];
      [destruct (Hn r Ha) | exact H]. }
  repeat split.
  - intros r v Ha Hs Hj.
    destruct Hc as [(r' & v' & Ha' & _ & Hj' & H) | [Hn _]].
    + rewrite (answered_unique _ _ _ _ Ha Ha') in Hj.
      rewrite Hj in Hj'. injection Hj' as <-. exact H.
    + destruct (Hn r v Ha Hs Hj).
  - intros r Ha Hs.
    destruct Hc as [(r' & v' & Ha' & Hs' & _) | [_ H]]; [| exact H].
    rewrite (answered_unique _ _ _ _ Ha Ha') in Hs. contradiction.
  - intros r e Ha Hj.
    destruct Hc as [(r' & v' & Ha' & _ & Hj' & _) | [_ H]]; [| exact H].
    rewrite (answered_unique _ _ _ _ Ha Ha') in Hj.
    rewrite Hj in Hj'. discriminate Hj'.
  - exact Hnone.
  - intros Hmiss. apply Hnone. intros r Ha.
    destruct (answered_has_keys _ _ _ Ha) as (H1 & H2 & H3).
    destruct Hmiss as [H | [H | H]]; contradiction.
  - apply openapi_request_returns.
Qed.

Lemma openapi_request_result_witness :
  (answered (requests_answering
               (Return (openapi_request.mkResponse 200 (Return (PyList [PyStr "ada"])))))
            get_users
            (openapi_request.mkResponse 200 (Return (PyList [PyStr "ada"]))) /\
   result (openapi_request.openapi_request
             (requests_answering
                (Return (openapi_request.mkResponse 200 (Return (PyList [PyStr "ada"])))))
             get_users)
     = Return (PyList [PyStr "ada"])) /\
  (answered (requests_answering
               (Return (openapi_request.mkResponse 404 (Return (PyStr "no")))))
            get_users
            (openapi_request.mkResponse 404 (Return (PyStr "no"))) /\
   result (openapi_request.openapi_request
             (requests_answering
                (Return (openapi_request.mkResponse 404 (Return (PyStr "no")))))
             get_users)
     = Return PyNone) /\
  (dict_get [("page", PyInt 2)] "__baseurl" = None /\
   result (openapi_request.openapi_request
             (requests_answering
                (Return (openapi_request.mkResponse 200 (Return (PyStr "ok")))))
             [("page", PyInt 2)])
     = Return PyNone).
Proof.
  assert (H200 : answered
            (requests_answering
               (Return (openapi_request.mkResponse 200 (Return (PyList [PyStr "ada"])))))
            get_users
            (openapi_request.mkResponse 200 (Return (PyList [PyStr "ada"])))).
  { eexists _, _, _, _, _. repeat split; reflexivity. }
  assert (H404 : answered
            (requests_answering
               (Return (openapi_request.mkResponse 404 (Return (PyStr "no")))))
            get_users
            (openapi_request.mkResponse 404 (Return (PyStr "no")))).
  { eexists _, _, _, _, _. repeat split; reflexivity. }
  split; [split; [exact H200 |] | split; [split; [exact H404 |] | split; [reflexivity |]]].
  - apply (proj1 (openapi_request_result _ get_users) _ _ H200); reflexivity.
  - apply (proj1 (proj2 (openapi_request_result _ get_users)) _ H404).
    simpl. discriminate.
  - apply (proj1 (proj2 (proj2 (proj2 (proj2
             (openapi_request_result
                (requests_answering
                   (Return (openapi_request.mkResponse 200 (Return (PyStr "ok")))))
                [("page", PyInt 2)])))))).
    left. reflexivity.
Defined.

End Siblings.

(** * Further properties of the tools *)

(** ** The decoder on texts that begin with a brace *)

Section DecoderObjects.

(** Whatever [scan_members] returns is a [dict]. *)
Lemma scan_members_dict (fuel : nat) :
  forall s seen v rest,
    Json.scan_members fuel s seen = Return (v, rest) -> exists d, v = PyDict d.
Proof.
  induction fuel as [| f IH]; intros s seen v rest H; simpl in H; [discriminate H |].
  destruct s as [| a r]; [discriminate H |].
  destruct (negb (Nat.eqb (nat_of_ascii a) 34)); [discriminate H |].
  destruct (Json.scanstring (String.length r) r []) as [[key rest0] | e];
    [| discriminate H].
  destruct (Json.skip_ws rest0) as [| c1 rest1]; [discriminate H |].
  destruct (Ascii.eqb c1 ":") eqn:Ec1.
  2:{ exfalso. destruct c1 as [[] [] [] [] [] [] [] []];
        try discriminate H; discriminate Ec1. }
  apply Ascii.eqb_eq in Ec1. subst c1.
  destruct (Json.scan_once f (Json.skip_ws rest1)) as [[v2 rest2] | e2];
    [| discriminate H].
  destruct (Json.skip_ws rest2) as [| c3 rest3]; [discriminate H |].
  destruct (Ascii.eqb c3 "}") eqn:Eb.
  - apply Ascii.eqb_eq in Eb. subst c3.
    injection H as <- _. eexists. reflexivity.
  - destruct (Ascii.eqb c3 ",") eqn:Ec.
    + apply Ascii.eqb_eq in Ec. subst c3. exact (IH _ _ _ _ H).
    + exfalso. destruct c3 as [[] [] [] [] [] [] [] []];
        try discriminate H; try discriminate Eb; discriminate Ec.
Qed.

(** A text that begins with an opening brace decodes to a [dict] or not
    at all. *)
Lemma loads_object_is_dict (s : string) (v : PyVal) :
  startswith s "{" = true -> Json.loads s = Return v -> exists d, v = PyDict d.
Proof.
  intros Hs H. destruct s as [| a r]; [discriminate Hs |].
  simpl in Hs. apply Ascii.eqb_eq in Hs. subst a.
  unfold Json.loads in H.
  replace (2 * String.length (String "{" r) + 2)
    with (S (2 * String.length r + 3)) in H by (simpl; lia).
  change (Json.skip_ws (String "{" r)) with (String "{" r) in H.
  cbn [Json.scan_once] in H.
  change (Nat.eqb (nat_of_ascii "{") 34) with false in H.
  change (Nat.eqb (nat_of_ascii "{") 123) with true in H.
  cbv iota in H.
  destruct (Json.skip_ws r) as [| c rest] eqn:Er.
  - destruct (Json.scan_members _ EmptyString []) as [[v' rest'] | e] eqn:Em;
      [| discriminate H].
    destruct (scan_members_dict _ _ _ _ _ Em) as [d ->].
    destruct (Json.skip_ws rest'); [| discriminate H].
    injection H as <-. eexists. reflexivity.
  - destruct (Ascii.eqb c "}") eqn:Eb.
    + apply Ascii.eqb_eq in Eb. subst c.
      destruct (Json.skip_ws rest); [| discriminate H].
      injection H as <-. eexists. reflexivity.
    + assert (Hm : exists v' rest',
                 Json.scan_members (2 * String.length r + 3) (String c rest) []
                   = Return (v', rest') /\
                 match Json.skip_ws rest' with
                 | EmptyString => Return v'
                 | String _ _ => Raise (Json.decode_error "Extra data")
                 end = Return v).
      { destruct c as [[] [] [] [] [] [] [] []]; try discriminate Eb;
          (destruct (Json.scan_members _ _ []) as [[v' rest'] | e];
           [exists v', rest'; split; [reflexivity | exact H] | discriminate H]). }
      destruct Hm as (v' & rest' & Em & H').
      destruct (scan_members_dict _ _ _ _ _ Em) as [d ->].
      destruct (Json.skip_ws rest'); [| discriminate H'].
      injection H' as <-. eexists. reflexivity.
Qed.

End DecoderObjects.

(** ** More on [extract_message] *)

Section ExtractMessageMore.
Import CustomHumanInput Samples.

(** X1.  [extract_message] logs exactly when it parses and the parse
    raises: one exception then, and nothing in every other case. *)
Theorem extract_message_log (text : PyVal) :
  calls (extract_message text)
    = match text with
      | PyStr s =>
          if startswith s "{" then
            match Json.loads s with
            | Raise e => [LogException e]
            | Return _ => []
            end
          else []
      | _ => []
      end.
Proof.
  unfold calls, run.
  destruct text; try reflexivity.
  destruct (startswith s "{") eqn:Hs.
  - destruct (Json.loads s) as [v | e] eqn:Hl.
    + destruct (loads_object_is_dict s v Hs Hl) as [d ->].
      rewrite (extract_message_dict s d [] Hs Hl). reflexivity.
    + rewrite (extract_message_raise s e [] Hs Hl). reflexivity.
  - rewrite extract_message_plain; [reflexivity |].
    intros s' E. injection E as <-. exact Hs.
Qed.

(** X2.  When the text begins with a brace and parses to an object with at
    most one entry and no value other than null, [extract_message]
    returns [None], not the text. *)
Theorem extract_message_nothing_to_extract (s : string) (d : list (string * PyVal)) :
  startswith s "{" = true ->
  Json.loads s = Return (PyDict d) ->
  (length d <= 1)%nat ->
  (forall k v, In (k, v) d -> v = PyNone) ->
  run (extract_message (PyStr s)) = ([], Return PyNone).
Proof.
  intros Hs Hl Hlen Hnone. unfold run.
  rewrite (extract_message_dict s d [] Hs Hl).
  destruct d as [| [k v] [| p d']]; simpl in *; try lia; try reflexivity.
  rewrite (Hnone k v (or_introl eq_refl)). reflexivity.
Qed.

Lemma extract_message_nothing_to_extract_witness :
  startswith a_null "{" = true /\
  Json.loads a_null = Return (PyDict [("a", PyNone)]) /\
  run (extract_message (PyStr a_null)) = ([], Return PyNone).
Proof.
  split; [reflexivity |].
  split; [vm_compute; reflexivity |].
  apply (extract_message_nothing_to_extract a_null [("a", PyNone)]).
  - reflexivity.
  - vm_compute. reflexivity.
  - simpl. lia.
  - intros k v [E | []]. injection E as _ <-. reflexivity.
Defined.

(** X3.  Whatever [extract_message] returns is the input itself, or
    [None], or the value of the single entry of the object that the input
    parses to. *)
Theorem extract_message_range (text v : PyVal) :
  result (extract_message text) = Return v ->
  v = text \/ v = PyNone \/
  exists s k, text = PyStr s /\ startswith s "{" = true /\
              Json.loads s = Return (PyDict [(k, v)]).
Proof.
  unfold result, run. intros H.
  destruct text;
    try (rewrite extract_message_plain in H by (intros s' E; discriminate E);
         injection H as <-; left; reflexivity).
  destruct (startswith s "{") eqn:Hs.
  - destruct (Json.loads s) as [w | e] eqn:Hl.
    + destruct (loads_object_is_dict s w Hs Hl) as [d ->].
      rewrite (extract_message_dict s d [] Hs Hl) in H. simpl in H.
      destruct d as [| [k w] [| p d']]; simpl in H; injection H as <-.
      * right. left. reflexivity.
      * destruct w; right; right; exists s, k; repeat split; assumption.
      * left. reflexivity.
    + rewrite (extract_message_raise s e [] Hs Hl) in H.
      injection H as <-. left. reflexivity.
  - rewrite extract_message_plain in H
      by (intros s' E; injection E as <-; exact Hs).
    injection H as <-. left. reflexivity.
Qed.

Lemma extract_message_range_witness :
  result (extract_message (PyStr question_hi)) = Return (PyStr "hi") /\
  (PyStr "hi" = PyStr question_hi \/ PyStr "hi" = PyNone \/
   exists s k, PyStr question_hi = PyStr s /\ startswith s "{" = true /\
               Json.loads s = Return (PyDict [(k, PyStr "hi")])).
Proof.
  split; [vm_compute; reflexivity |].
  apply (extract_message_range (PyStr question_hi) (PyStr "hi")).
  vm_compute. reflexivity.
Defined.

End ExtractMessageMore.

(** ** More on [CustomHumanInput._run] *)

Section HumanInputMore.
Import CustomHumanInput Samples.

(** [_run], unfolded along the answers of its collaborators. *)
Lemma run_unfold (env : Env) (self : self_t) (text : PyVal) :
  exists log v,
    run (extract_message text) = (log, Return v) /\
    (log = [] \/ exists e, log = [LogException e]) /\
    run (_run env self text)
      = match validate env (envelope env self v) with
        | Raise e => timeout_handler self log e
        | Return _ =>
            match send env (socket_client self) MESSAGE (envelope env self v) "both" with
            | Raise e =>
                timeout_handler self
                  (log ++ [Send MESSAGE (envelope env self v) "both"])%list e
            | Return _ =>
                after_receive self
                  (log ++ [Send MESSAGE (envelope env self v) "both"; Receive])%list
            end
        end.
Proof.
  destruct (extract_message_returns text []) as (v & log & E & Hlog).
  simpl app in E. exists log, v.
  split; [exact E |]. split; [exact Hlog |].
  unfold run in *. unfold _run, try_except, bind, lift, call, ret.
  rewrite E.
  set (msg := envelope env self v). set (c := socket_client self).
  unfold timeout_handler, after_receive. fold c.
  destruct (validate env msg) as [[] | e1].
  2:{ destruct (is_TimeoutError e1); [| reflexivity].
      destruct (emit c "message" (timeout_notice self)); reflexivity. }
  destruct (send env c MESSAGE msg "both") as [[] | e2].
  2:{ destruct (is_TimeoutError e2); [| reflexivity].
      destruct (emit c "message" (timeout_notice self)); reflexivity. }
  rewrite <- app_assoc. simpl app.
  destruct (receive c) as [feedback | e3].
  2:{ destruct (is_TimeoutError e3); [| reflexivity].
      destruct (emit c "message" (timeout_notice self)); reflexivity. }
  destruct (py_getitem feedback 0) as [kind | e4] eqn:E0.
  - destruct (eq_str kind "terminate"); [reflexivity |].
    destruct (py_getitem feedback 1) as [payload | e5] eqn:E1; [reflexivity |].
    rewrite (py_getitem_not_timeout _ _ _ E1). reflexivity.
  - rewrite (py_getitem_not_timeout _ _ _ E0). reflexivity.
Qed.

(** The shapes the calls of [_run] can take: what
    [extract_message] logged, then at most one [send] of the envelope
    built from its result, then [receive()] only after that [send], and
    the error notification, if any, last and once. *)
Lemma run_calls_shapes (env : Env) (self : self_t) (text : PyVal) :
  exists log v,
    run (extract_message text) = (log, Return v) /\
    let sent := Send MESSAGE (envelope env self v) "both" in
    let notice := Emit "message" (timeout_notice self) in
    In (calls (_run env self text))
       [log; log ++ [notice]; log ++ [sent]; log ++ [sent; notice];
        log ++ [sent; Receive]; log ++ [sent; Receive; notice]]%list.
Proof.
  destruct (run_unfold env self text) as (log & v & E & _ & R).
  exists log, v. split; [exact E |].
  unfold calls. rewrite R. clear R.
  unfold timeout_handler, after_receive.
  destruct (validate env (envelope env self v)) as [[] | e1].
  2:{ destruct (is_TimeoutError e1); simpl; auto. }
  destruct (send env (socket_client self) MESSAGE (envelope env self v) "both")
    as [[] | e2].
  2:{ destruct (is_TimeoutError e2); simpl; [| auto].
      rewrite <- app_assoc. simpl. auto. }
  destruct (receive (socket_client self)) as [feedback | e3]; simpl.
  - auto 6.
  - destruct (is_TimeoutError e3); simpl; [| auto 6].
    rewrite <- app_assoc. simpl. auto 7.
Qed.

(** X4.  The calls of [_run] come in one order only: what
    [extract_message] logged, then at most one [send] of the envelope
    built from its result, then [receive()] only after that [send], and
    the error notification, if any, last and once. *)
Theorem run_calls_order (env : Env) (self : self_t) (text : PyVal) :
  exists log v,
    run (extract_message text) = (log, Return v) /\
    let sent := Send MESSAGE (envelope env self v) "both" in
    let notice := Emit "message" (timeout_notice self) in
    In (calls (_run env self text))
       [log; log ++ [notice]; log ++ [sent]; log ++ [sent; notice];
        log ++ [sent; Receive]; log ++ [sent; Receive; notice]]%list.
Proof.
  exact (run_calls_shapes env self text).
Qed.

(** X5.  A timeout of [send] is handled like a timeout of [receive()]:
    [_run] never calls [receive()], sends the error notification once, and
    returns ["exit"] when the notification goes through. *)
Theorem run_send_timeout (env : Env) (self : self_t) (text : PyVal) (e : exn) :
  (forall msg, validate env msg = Return tt) ->
  (forall msg, send env (socket_client self) MESSAGE msg "both" = Raise e) ->
  is_TimeoutError e = true ->
  ~ In Receive (calls (_run env self text)) /\
  filter is_Emit (calls (_run env self text))
    = [Emit "message" (timeout_notice self)] /\
  result (_run env self text)
    = match emit (socket_client self) "message" (timeout_notice self) with
      | Return _ => Return (PyStr "exit")
      | Raise e' => Raise e'
      end.
Proof.
  intros Hv Hs Ht.
  destruct (run_unfold env self text) as (log & v & _ & Hlog & R).
  unfold calls, result. rewrite R, Hv, Hs. unfold timeout_handler. rewrite Ht.
  simpl fst. simpl snd. repeat split.
  - intros H.
    repeat (apply in_app_or in H; destruct H as [H | H]);
      try (exact (not_Receive_in_log log Hlog H));
      simpl in H; intuition discriminate.
  - rewrite !filter_app, (no_Emit_in_log log Hlog). reflexivity.
Qed.

Lemma run_send_timeout_witness :
  is_TimeoutError timed_out = true /\
  run (_run (mkEnv "id-1" (PyFloat "1.0") (fun _ => Return tt)
                   (fun _ _ _ _ => Raise timed_out))
            (tool (client (Return (PyList [PyStr "ok"; PyStr "yes"])) (Return tt)))
            (PyStr "Shall I go on?"))
    = ([Send MESSAGE
          (envelope (mkEnv "id-1" (PyFloat "1.0") (fun _ => Return tt)
                           (fun _ _ _ _ => Raise timed_out))
                    (tool (client (Return (PyList [PyStr "ok"; PyStr "yes"])) (Return tt)))
                    (PyStr "Shall I go on?")) "both";
        Emit "message" (PyDict [("room", PyStr "session-1");
                                ("type", PyStr "error");
                                ("message", PyStr "TimeOutError")])],
       Return (PyStr "exit")) /\
  result (_run (mkEnv "id-1" (PyFloat "1.0") (fun _ => Return tt)
                      (fun _ _ _ _ => Raise timed_out))
               (tool (client (Return (PyList [PyStr "ok"; PyStr "yes"])) (Return tt)))
               (PyStr "Shall I go on?"))
    = Return (PyStr "exit").
Proof.
  split; [reflexivity |].
  split; [vm_compute; reflexivity |].
  apply (proj2 (proj2 (run_send_timeout
           (mkEnv "id-1" (PyFloat "1.0") (fun _ => Return tt)
                  (fun _ _ _ _ => Raise timed_out))
           (tool (client (Return (PyList [PyStr "ok"; PyStr "yes"])) (Return tt)))
           (PyStr "Shall I go on?") timed_out
           (fun _ => eq_refl) (fun _ => eq_refl) eq_refl))).
Defined.

(** X6.  How [_run] reads a reply that is a list or a tuple, by its
    length: with no element it raises an [IndexError]; the first element
    ["terminate"] gives the sentinel whatever follows, even nothing; any
    other first element gives the second element, or an [IndexError]
    when there is none; elements after the second are ignored.  No error
    notification is sent in any of these cases. *)
Theorem run_reply_by_length (env : Env) (self : self_t) (text : PyVal)
    (reply : PyVal) (items : list PyVal) (name : string) :
  (reply = PyList items /\ name = "list") \/
  (reply = PyTuple items /\ name = "tuple") ->
  In Receive (calls (_run env self text)) ->
  receive (socket_client self) = Return reply ->
  filter is_Emit (calls (_run env self text)) = [] /\
  result (_run env self text)
    = match items with
      | [] => Raise (mkExn IndexError (name ++ " index out of range"))
      | kind :: rest =>
          if eq_str kind "terminate"
          then Return (PyStr " TERMINATE ALL TASKS IMMEDIATELY ")
          else match rest with
               | [] => Raise (mkExn IndexError (name ++ " index out of range"))
               | payload :: _ => Return payload
               end
      end.
Proof.
  intros Hreply Hcall Hrecv.
  destruct (run_reaches_receive env self text Hcall) as (log & msg & Hlog & E).
  unfold calls, result. rewrite E. unfold after_receive. rewrite Hrecv.
  simpl fst. simpl snd. split.
  - rewrite filter_app, (no_Emit_in_log log Hlog). reflexivity.
  - destruct Hreply as [[-> ->] | [-> ->]];
      (destruct items as [| kind [| payload rest]]; simpl; [reflexivity | |]);
      destruct (eq_str kind "terminate"); reflexivity.
Qed.

Lemma run_reply_by_length_witness :
  In Receive (calls (_run env0 (tool (client (Return (PyList [PyStr "ok"])) (Return tt)))
                          (PyStr "Shall I go on?"))) /\
  result (_run env0 (tool (client (Return (PyList [PyStr "ok"])) (Return tt)))
               (PyStr "Shall I go on?"))
    = Raise (mkExn IndexError "list index out of range") /\
  result (_run env0 (tool (client (Return (PyTuple [PyStr "terminate"])) (Return tt)))
               (PyStr "Shall I go on?"))
    = Return (PyStr " TERMINATE ALL TASKS IMMEDIATELY ").
Proof.
  split; [vm_compute; right; left; reflexivity |].
  split.
  - apply (proj2 (run_reply_by_length env0
             (tool (client (Return (PyList [PyStr "ok"])) (Return tt)))
             (PyStr "Shall I go on?") (PyList [PyStr "ok"]) [PyStr "ok"] "list"
             (or_introl (conj eq_refl eq_refl))
             (or_intror (or_introl eq_refl)) eq_refl)).
  - apply (proj2 (run_reply_by_length env0
             (tool (client (Return (PyTuple [PyStr "terminate"])) (Return tt)))
             (PyStr "Shall I go on?") (PyTuple [PyStr "terminate"])
             [PyStr "terminate"] "tuple"
             (or_intror (conj eq_refl eq_refl))
             (or_intror (or_introl eq_refl)) eq_refl)).
Defined.

(** X7.  A [TimeoutError] never reaches the caller of [_run] from the
    request or the wait: when [_run] raises one, it is the exception that
    the [emit] of the error notification raised. *)
Theorem run_raises_timeout_from_emit (env : Env) (self : self_t) (text : PyVal)
    (e : exn) :
  result (_run env self text) = Raise e ->
  is_TimeoutError e = true ->
  emit (socket_client self) "message" (timeout_notice self) = Raise e.
Proof.
  intros H Ht.
  destruct (run_unfold env self text) as (log & v & _ & _ & R).
  unfold result in H. rewrite R in H. clear R.
  assert (Hh : forall t e0, snd (timeout_handler self t e0) = Raise e ->
               emit (socket_client self) "message" (timeout_notice self) = Raise e).
  { intros t e0. unfold timeout_handler.
    destruct (is_TimeoutError e0) eqn:E0; simpl.
    - destruct (emit _ _ _); intros H0;
        [discriminate H0 | injection H0 as ->; reflexivity].
    - intros H0. injection H0 as ->. rewrite Ht in E0. discriminate E0. }
  destruct (validate env (envelope env self v)) as [[] | e1]; [| exact (Hh _ _ H)].
  destruct (send env (socket_client self) MESSAGE (envelope env self v) "both")
    as [[] | e2]; [| exact (Hh _ _ H)].
  unfold after_receive in H.
  destruct (receive (socket_client self)) as [feedback | e3].
  - simpl in H.
    destruct (py_getitem feedback 0) as [kind | e4] eqn:E0.
    + destruct (eq_str kind "terminate"); [discriminate H |].
      rewrite (py_getitem_not_timeout _ _ _ H) in Ht. discriminate Ht.
    + injection H as ->.
      rewrite (py_getitem_not_timeout _ _ _ E0) in Ht. discriminate Ht.
  - destruct (is_TimeoutError e3) eqn:E3; simpl in H.
    + destruct (emit _ _ _); [discriminate H | injection H as ->; reflexivity].
    + injection H as ->. rewrite Ht in E3. discriminate E3.
Qed.

Lemma run_raises_timeout_from_emit_witness :
  result (_run env0 (tool (client (Raise timed_out) (Raise timed_out)))
               (PyStr "Shall I go on?")) = Raise timed_out /\
  is_TimeoutError timed_out = true /\
  emit (socket_client (tool (client (Raise timed_out) (Raise timed_out))))
       "message"
       (timeout_notice (tool (client (Raise timed_out) (Raise timed_out))))
    = Raise timed_out.
Proof.
  split; [vm_compute; reflexivity |].
  split; [reflexivity |].
  apply (run_raises_timeout_from_emit env0
           (tool (client (Raise timed_out) (Raise timed_out)))
           (PyStr "Shall I go on?") timed_out).
  - vm_compute. reflexivity.
  - reflexivity.
Defined.

(** X8.  [_run] sends the error notification only after a timeout: when
    it calls [emit], the validation of the envelope, [send] or
    [receive()] has raised a [TimeoutError]. *)
Theorem run_notice_needs_timeout (env : Env) (self : self_t) (text : PyVal)
    (name : string) (payload : PyVal) :
  In (Emit name payload) (calls (_run env self text)) ->
  exists v e,
    result (extract_message text) = Return v /\
    is_TimeoutError e = true /\
    (validate env (envelope env self v) = Raise e \/
     send env (socket_client self) MESSAGE (envelope env self v) "both" = Raise e \/
     receive (socket_client self) = Raise e).
Proof.
  intros H.
  destruct (run_unfold env self text) as (log & v & Ex & Hlog & R).
  assert (Hnl : forall ev, In ev log -> is_Emit ev = false).
  { intros ev Hev. destruct Hlog as [-> | [e0 ->]]; simpl in Hev.
    - destruct Hev.
    - destruct Hev as [<- | []]. reflexivity. }
  assert (Hlogno : ~ In (Emit name payload) log).
  { intros Hin. apply Hnl in Hin. discriminate Hin. }
  unfold calls in H. rewrite R in H. clear R.
  exists v. unfold result. rewrite Ex. simpl snd.
  unfold timeout_handler, after_receive in H.
  destruct (validate env (envelope env self v)) as [[] | e1].
  2:{ destruct (is_TimeoutError e1) eqn:E1.
      - exists e1. auto.
      - simpl in H. contradiction. }
  destruct (send env (socket_client self) MESSAGE (envelope env self v) "both")
    as [[] | e2].
  2:{ destruct (is_TimeoutError e2) eqn:E2.
      - exists e2. auto.
      - simpl in H. apply in_app_or in H. destruct H as [H | [H | []]];
          [contradiction | discriminate H]. }
  destruct (receive (socket_client self)) as [feedback | e3].
  - simpl in H. apply in_app_or in H.
    destruct H as [H | [H | [H | []]]];
      [contradiction | discriminate H | discriminate H].
  - destruct (is_TimeoutError e3) eqn:E3.
    + exists e3. auto.
    + simpl in H. apply in_app_or in H.
      destruct H as [H | [H | [H | []]]];
        [contradiction | discriminate H | discriminate H].
Qed.

Lemma run_notice_needs_timeout_witness :
  In (Emit "message" (timeout_notice (tool (client (Raise timed_out) (Return tt)))))
     (calls (_run env0 (tool (client (Raise timed_out) (Return tt)))
                  (PyStr "Shall I go on?"))) /\
  exists v e,
    result (extract_message (PyStr "Shall I go on?")) = Return v /\
    is_TimeoutError e = true /\
    (validate env0 (envelope env0 (tool (client (Raise timed_out) (Return tt))) v)
       = Raise e \/
     send env0 (socket_client (tool (client (Raise timed_out) (Return tt)))) MESSAGE
          (envelope env0 (tool (client (Raise timed_out) (Return tt))) v) "both"
       = Raise e \/
     receive (socket_client (tool (client (Raise timed_out) (Return tt)))) = Raise e).
Proof.
  split; [vm_compute; right; right; left; reflexivity |].
  apply (run_notice_needs_timeout env0
           (tool (client (Raise timed_out) (Return tt)))
           (PyStr "Shall I go on?") "message"
           (timeout_notice (tool (client (Raise timed_out) (Return tt))))).
  vm_compute. right. right. left. reflexivity.
Defined.

(** X9.  Whatever [_run] publishes goes out on [SocketEvents.MESSAGE] in
    mode ["both"], to the room of the session, from ["system"], marked as
    feedback, as a single first chunk of one token, and its text is what
    [extract_message] returns for the input. *)
Theorem run_publishes (env : Env) (self : self_t) (text : PyVal)
    (name : SocketEvents) (msg : SocketMessage) (mode : string) :
  In (Send name msg mode) (calls (_run env self text)) ->
  name = MESSAGE /\ mode = "both" /\
  room msg = session_id self /\ authorName msg = "system" /\
  isFeedback msg = true /\
  result (extract_message text) = Return (Effects.text (message msg)) /\
  chunkId (message msg) = uuid4 env /\ timestamp (message msg) = now_ms env /\
  first (message msg) = true /\ single (message msg) = true /\
  tokens (message msg) = 1%Z.
Proof.
  intros H.
  destruct (run_calls_shapes env self text) as (log & v & Ex & Hin).
  destruct (run_unfold env self text) as (log' & v' & Ex' & Hlog & _).
  rewrite Ex in Ex'. injection Ex' as <- <-.
  assert (Hno : ~ In (Send name msg mode) log).
  { intros Hl. destruct Hlog as [-> | [e ->]]; simpl in Hl;
      [exact Hl | destruct Hl as [Hl | []]; discriminate Hl]. }
  assert (Hm : Send name msg mode = Send MESSAGE (envelope env self v) "both").
  { cbv zeta in Hin. simpl in Hin.
    repeat (destruct Hin as [Hin | Hin];
            [rewrite <- Hin in H;
             repeat (apply in_app_or in H; destruct H as [H | H]);
             try contradiction; simpl in H;
             repeat (destruct H as [H | H]; try discriminate H;
                     try (symmetry; exact H));
             try contradiction |]).
    destruct Hin. }
  injection Hm as -> -> ->.
  unfold result. rewrite Ex. simpl. repeat split; reflexivity.
Qed.

Lemma run_publishes_witness :
  In (Send MESSAGE
        (envelope env0 (tool (client (Return (PyList [PyStr "ok"; PyStr "yes"])) (Return tt)))
                  (PyStr "hi")) "both")
     (calls (_run env0
               (tool (client (Return (PyList [PyStr "ok"; PyStr "yes"])) (Return tt)))
               (PyStr question_hi))) /\
  result (extract_message (PyStr question_hi)) = Return (PyStr "hi").
Proof.
  split; [vm_compute; left; reflexivity |].
  apply (run_publishes env0
           (tool (client (Return (PyList [PyStr "ok"; PyStr "yes"])) (Return tt)))
           (PyStr question_hi) MESSAGE
           (envelope env0
              (tool (client (Return (PyList [PyStr "ok"; PyStr "yes"])) (Return tt)))
              (PyStr "hi")) "both").
  vm_compute. left. reflexivity.
Defined.

End HumanInputMore.

(** ** More on [get_papers_from_arxiv._run] and [openapi_request] *)

Section SiblingsMore.
Import Samples.


(** [openapi_request], unfolded along what it prepares and what the HTTP
    library answers. *)
Lemma openapi_request_unfold requests kwargs :
  run (openapi_request.openapi_request requests kwargs)
    = match prepared requests kwargs with
      | Raise e => ([Print ("An error occurred: " ++ exn_str e)], Return PyNone)
      | Return (f, url, params) =>
          let req :=
            Request (openapi_request.method_name
                       (openapi_request.kwargs_get kwargs "__method")) url params in
          match f url params with
          | Raise e =>
              ([req; Print ("An error occurred: " ++ exn_str e)], Return PyNone)
          | Return r =>
              if (openapi_request.status_code r =? 200)%Z then
                match openapi_request.json r with
                | Return v => ([req], Return v)
                | Raise e =>
                    ([req; Print ("An error occurred: " ++ exn_str e)], Return PyNone)
                end
              else ([req], Return PyNone)
          end
      end.
Proof.
  unfold run, openapi_request.openapi_request, prepared, try_except, bind, lift,
    call, ret, tell, any_Exception.
  destruct (openapi_request.import_requests requests) as [[] | e0]; [| reflexivity].
  destruct (openapi_request.getattr requests _) as [f | e1]; [| reflexivity].
  destruct (openapi_request.kwargs_pop kwargs "__baseurl") as [k1 | e2]; [| reflexivity].
  destruct (openapi_request.kwargs_pop k1 "__path") as [k2 | e3]; [| reflexivity].
  destruct (openapi_request.kwargs_pop k2 "__method") as [k3 | e4]; [| reflexivity].
  destruct (py_add _ _) as [url | e5]; [| reflexivity].
  simpl.
  destruct (f url k3) as [r | e6]; [| reflexivity].
  destruct (openapi_request.status_code r =? 200)%Z; [| reflexivity].
  destruct (openapi_request.json r); reflexivity.
Qed.

(** X11.  [openapi_request] makes at most one HTTP request, and prints at
    most one line, last: either it prints and requests nothing, or it
    makes its request and nothing else, or it makes its request and then
    prints; whenever it prints, it returns [None]. *)
Theorem openapi_request_calls requests kwargs :
  (exists line,
     run (openapi_request.openapi_request requests kwargs)
       = ([Print line], Return PyNone)) \/
  (exists name url params,
     calls (openapi_request.openapi_request requests kwargs)
       = [Request name url params]) \/
  (exists name url params line,
     run (openapi_request.openapi_request requests kwargs)
       = ([Request name url params; Print line], Return PyNone)).
Proof.
  unfold calls. rewrite openapi_request_unfold.
  destruct (prepared requests kwargs) as [[[f url] params] | e].
  - cbv zeta. destruct (f url params) as [r | e].
    + destruct (openapi_request.status_code r =? 200)%Z.
      * destruct (openapi_request.json r).
        -- right. left. eexists _, _, _. reflexivity.
        -- right. right. eexists _, _, _, _. reflexivity.
      * right. left. eexists _, _, _. reflexivity.
    + right. right. eexists _, _, _, _. reflexivity.
  - left. eexists. reflexivity.
Qed.

Lemma dict_remove_filter (d : list (string * PyVal)) (k : string) :
  NoDup (map fst d) ->
  dict_remove d k = filter (fun kv => negb (String.eqb (fst kv) k)) d.
Proof.
  induction d as [| [k0 v0] d IH]; intros Hnd; simpl; [reflexivity |].
  inversion Hnd as [| ? ? Hnotin Hnd']; subst.
  destruct (String.eqb k0 k) eqn:E; simpl.
  - apply String.eqb_eq in E. subst k0.
    clear IH Hnd Hnd'. induction d as [| [k1 v1] d IH]; simpl; [reflexivity |].
    simpl in Hnotin.
    destruct (String.eqb k1 k) eqn:E1; simpl.
    + apply String.eqb_eq in E1. subst k1. exfalso. apply Hnotin. left. reflexivity.
    + f_equal. apply IH. intros H. apply Hnotin. right. exact H.
  - f_equal. apply IH. exact Hnd'.
Qed.

Lemma NoDup_keys_filter (p : string * PyVal -> bool) (d : list (string * PyVal)) :
  NoDup (map fst d) -> NoDup (map fst (filter p d)).
Proof.
  induction d as [| kv d IH]; intros Hnd; simpl; [constructor |].
  inversion Hnd as [| ? ? Hnotin Hnd']; subst.
  destruct (p kv); simpl; [| exact (IH Hnd')].
  constructor; [| exact (IH Hnd')].
  intros H. apply Hnotin. apply in_map_iff in H. destruct H as (x & Hx & Hin).
  apply in_map_iff. exists x. split; [exact Hx |].
  apply filter_In in Hin. exact (proj1 Hin).
Qed.

Lemma filter_twice {A : Type} (f g : A -> bool) (l : list A) :
  filter f (filter g l) = filter (fun x => g x && f x) l.
Proof.
  induction l as [| a l IH]; simpl; [reflexivity |].
  destruct (g a); simpl; [destruct (f a); rewrite IH; reflexivity | exact IH].
Qed.

(** With distinct keys, the parameters prepared are the keyword arguments
    without the reserved ones. *)
Lemma prepared_params requests kwargs f url params :
  NoDup (map fst kwargs) ->
  prepared requests kwargs = Return (f, url, params) ->
  params = forwarded kwargs.
Proof.
  intros Hnd H. unfold prepared, openapi_request.kwargs_pop in H.
  destruct (openapi_request.import_requests requests); [| discriminate H].
  destruct (openapi_request.getattr requests _); [| discriminate H].
  destruct (dict_get kwargs "__baseurl"); [| discriminate H].
  destruct (dict_get (dict_remove kwargs "__baseurl") "__path"); [| discriminate H].
  destruct (dict_get (dict_remove (dict_remove kwargs "__baseurl") "__path") "__method");
    [| discriminate H].
  destruct (py_add _ _); [| discriminate H].
  injection H as _ _ <-.
  rewrite (dict_remove_filter kwargs "__baseurl" Hnd).
  rewrite (dict_remove_filter _ "__path" (NoDup_keys_filter _ _ Hnd)).
  rewrite (dict_remove_filter _ "__method")
    by (apply NoDup_keys_filter; apply NoDup_keys_filter; exact Hnd).
  rewrite !filter_twice. unfold forwarded, is_reserved.
  apply filter_ext. intros [k v]. simpl.
  destruct (String.eqb k "__baseurl"), (String.eqb k "__path"),
    (String.eqb k "__method"); reflexivity.
Qed.

Lemma dict_get_forwarded (kwargs : list (string * PyVal)) (k : string) :
  dict_get (forwarded kwargs) k
    = if is_reserved k then None else dict_get kwargs k.
Proof.
  unfold forwarded.
  induction kwargs as [| [k0 v0] d IH]; simpl.
  - destruct (is_reserved k); reflexivity.
  - destruct (is_reserved k0) eqn:E0; simpl.
    + rewrite IH. destruct (is_reserved k) eqn:Ek; [reflexivity |].
      destruct (String.eqb k0 k) eqn:E; [| reflexivity].
      apply String.eqb_eq in E. subst k0. rewrite E0 in Ek. discriminate Ek.
    + destruct (String.eqb k0 k) eqn:E.
      * apply String.eqb_eq in E. subst k0. rewrite E0. reflexivity.
      * exact IH.
Qed.

(** The request that [openapi_request] makes, if it makes one, is the one
    it prepared. *)
Lemma request_is_prepared requests kwargs name url params :
  In (Request name url params) (calls (openapi_request.openapi_request requests kwargs)) ->
  exists f,
    prepared requests kwargs = Return (f, url, params) /\
    name = openapi_request.method_name (openapi_request.kwargs_get kwargs "__method").
Proof.
  unfold calls. rewrite openapi_request_unfold.
  destruct (prepared requests kwargs) as [[[f url'] params'] | e].
  - cbv zeta. intros H. exists f.
    assert (E : Request name url params
                = Request (openapi_request.method_name
                             (openapi_request.kwargs_get kwargs "__method"))
                          url' params').
    { destruct (f url' params') as [r | e].
      - destruct (openapi_request.status_code r =? 200)%Z;
          [destruct (openapi_request.json r) |]; simpl in H;
          repeat (destruct H as [H | H]; try discriminate H;
                  try (symmetry; exact H)); destruct H.
      - simpl in H.
        repeat (destruct H as [H | H]; try discriminate H;
                try (symmetry; exact H)); destruct H. }
    injection E as -> -> ->. split; reflexivity.
  - simpl. intros [H | []]. discriminate H.
Qed.

(** X12.  With distinct keys among the keyword arguments, the parameters
    of the request that [openapi_request] makes are the keyword arguments
    without [__baseurl], [__path] and [__method], in their order: a
    reserved key is never forwarded and every other key is, with its
    value. *)
Theorem openapi_request_params requests kwargs name url params :
  NoDup (map fst kwargs) ->
  In (Request name url params) (calls (openapi_request.openapi_request requests kwargs)) ->
  params = forwarded kwargs /\
  forall k, dict_get params k = if is_reserved k then None else dict_get kwargs k.
Proof.
  intros Hnd H.
  destruct (request_is_prepared _ _ _ _ _ H) as (f & Hp & _).
  pose proof (prepared_params _ _ _ _ _ Hnd Hp) as ->.
  split; [reflexivity |]. intros k. apply dict_get_forwarded.
Qed.

Lemma openapi_request_params_witness :
  NoDup (map fst get_users) /\
  In (Request "get" (PyStr "https://api.example.org/users") [("page", PyInt 2)])
     (calls (openapi_request.openapi_request
               (requests_answering
                  (Return (openapi_request.mkResponse 200 (Return PyNone))))
               get_users)) /\
  [("page", PyInt 2)] = forwarded get_users.
Proof.
  assert (Hnd : NoDup (map fst get_users)).
  { simpl. repeat constructor; simpl; intuition discriminate. }
  split; [exact Hnd |].
  split; [vm_compute; left; reflexivity |].
  apply (proj1 (openapi_request_params
                  (requests_answering
                     (Return (openapi_request.mkResponse 200 (Return PyNone))))
                  get_users "get" (PyStr "https://api.example.org/users")
                  [("page", PyInt 2)] Hnd
                  (or_introl eq_refl))).
Defined.

(** X13.  The request goes to the function of the HTTP library named by
    [__method], and when [__baseurl] and [__path] are strings its URL is
    the one followed by the other, with nothing put between them. *)
Theorem openapi_request_url requests kwargs name url params (b p : string) :
  In (Request name url params) (calls (openapi_request.openapi_request requests kwargs)) ->
  dict_get kwargs "__baseurl" = Some (PyStr b) ->
  dict_get kwargs "__path" = Some (PyStr p) ->
  url = PyStr (b ++ p) /\ dict_get kwargs "__method" = Some (PyStr name).
Proof.
  intros H Hb Hp.
  destruct (request_is_prepared _ _ _ _ _ H) as (f & Hprep & ->).
  unfold prepared, openapi_request.kwargs_get, openapi_request.getattr in Hprep.
  rewrite Hb, Hp in Hprep.
  destruct (openapi_request.import_requests requests); [| discriminate Hprep].
  destruct (dict_get kwargs "__method") as [[] |] eqn:Em; try discriminate Hprep.
  destruct (openapi_request.getattr_requests requests s); [| discriminate Hprep].
  destruct (openapi_request.kwargs_pop kwargs "__baseurl"); [| discriminate Hprep].
  destruct (openapi_request.kwargs_pop _ "__path"); [| discriminate Hprep].
  destruct (openapi_request.kwargs_pop _ "__method"); [| discriminate Hprep].
  simpl in Hprep. injection Hprep as _ <- _.
  unfold openapi_request.kwargs_get. rewrite Em. split; reflexivity.
Qed.

Lemma openapi_request_url_witness :
  In (Request "get" (PyStr "https://api.example.org/users") [("page", PyInt 2)])
     (calls (openapi_request.openapi_request
               (requests_answering
                  (Return (openapi_request.mkResponse 200 (Return PyNone))))
               get_users)) /\
  dict_get get_users "__baseurl" = Some (PyStr "https://api.example.org") /\
  dict_get get_users "__path" = Some (PyStr "/users") /\
  PyStr "https://api.example.org/users"
    = PyStr ("https://api.example.org" ++ "/users") /\
  dict_get get_users "__method" = Some (PyStr "get").
Proof.
  split; [vm_compute; left; reflexivity |].
  split; [reflexivity |].
  split; [reflexivity |].
  apply (openapi_request_url
           (requests_answering
              (Return (openapi_request.mkResponse 200 (Return PyNone))))
           get_users "get" (PyStr "https://api.example.org/users")
           [("page", PyInt 2)] "https://api.example.org" "/users"
           (or_introl eq_refl) eq_refl eq_refl).
Defined.

(** The three keys are needed for the request to be prepared. *)
Lemma prepared_has_keys requests kwargs f url params :
  prepared requests kwargs = Return (f, url, params) ->
  dict_get kwargs "__baseurl" <> None /\
  dict_get kwargs "__path" <> None /\
  dict_get kwargs "__method" <> None.
Proof.
  intros H. unfold prepared, openapi_request.kwargs_pop in H.
  destruct (openapi_request.import_requests requests); [| discriminate H].
  destruct (openapi_request.getattr requests _); [| discriminate H].
  destruct (dict_get kwargs "__baseurl") eqn:E1; [| discriminate H].
  rewrite dict_get_remove_other in H by reflexivity.
  destruct (dict_get kwargs "__path") eqn:E2; [| discriminate H].
  rewrite !dict_get_remove_other in H by reflexivity.
  destruct (dict_get kwargs "__method") eqn:E3; [| discriminate H].
  repeat split; discriminate.
Qed.

(** X14.  When one of [__baseurl], [__path], [__method] is missing among
    the keyword arguments, [openapi_request] makes no HTTP request: it
    prints one line and returns [None]. *)
Theorem openapi_request_missing_key requests kwargs (k : string) :
  is_reserved k = true ->
  dict_get kwargs k = None ->
  exists line,
    run (openapi_request.openapi_request requests kwargs)
      = ([Print line], Return PyNone).
Proof.
  intros Hk Hmiss. rewrite openapi_request_unfold.
  destruct (prepared requests kwargs) as [[[f url] params] | e] eqn:Hp;
    [| eexists; reflexivity].
  exfalso.
  destruct (prepared_has_keys _ _ _ _ _ Hp) as (H1 & H2 & H3).
  unfold is_reserved in Hk.
  destruct (String.eqb k "__baseurl") eqn:Ek1;
    [apply String.eqb_eq in Ek1; subst k; contradiction |].
  destruct (String.eqb k "__path") eqn:Ek2;
    [apply String.eqb_eq in Ek2; subst k; contradiction |].
  destruct (String.eqb k "__method") eqn:Ek3;
    [apply String.eqb_eq in Ek3; subst k; contradiction | discriminate Hk].
Qed.

Lemma openapi_request_missing_key_witness :
  is_reserved "__path" = true /\
  dict_get [("__baseurl", PyStr "https://api.example.org");
            ("__method", PyStr "get")] "__path" = None /\
  exists line,
    run (openapi_request.openapi_request
           (requests_answering
              (Return (openapi_request.mkResponse 200 (Return PyNone))))
           [("__baseurl", PyStr "https://api.example.org");
            ("__method", PyStr "get")])
      = ([Print line], Return PyNone).
Proof.
  split; [reflexivity |].
  split; [reflexivity |].
  apply (openapi_request_missing_key
           (requests_answering
              (Return (openapi_request.mkResponse 200 (Return PyNone))))
           [("__baseurl", PyStr "https://api.example.org");
            ("__method", PyStr "get")] "__path" eq_refl eq_refl).
Defined.

Lemma answered_prepared requests kwargs r :
  answered requests kwargs r ->
  exists f url params,
    prepared requests kwargs = Return (f, url, params) /\ f url params = Return r.
Proof.
  intros (f & k1 & k2 & k3 & url & H0 & Hf & H1 & H2 & H3 & H4 & H5).
  exists f, url, k3. unfold prepared.
  rewrite H0, Hf, H1, H2, H3, H4. split; [reflexivity | exact H5].
Qed.

(** X15.  An answer with a status other than 200 is dropped in silence:
    [openapi_request] makes its request, prints nothing, and returns
    [None], whatever the body of the answer holds. *)
Theorem openapi_request_other_status requests kwargs r :
  answered requests kwargs r ->
  openapi_request.status_code r <> 200%Z ->
  exists name url params,
    run (openapi_request.openapi_request requests kwargs)
      = ([Request name url params], Return PyNone).
Proof.
  intros Ha Hs.
  destruct (answered_prepared _ _ _ Ha) as (f & url & params & Hp & Hr).
  rewrite openapi_request_unfold, Hp. cbv zeta. rewrite Hr.
  apply Z.eqb_neq in Hs. rewrite Hs.
  eexists _, _, _. reflexivity.
Qed.

Lemma openapi_request_other_status_witness :
  answered (requests_answering
              (Return (openapi_request.mkResponse 503 (Return (PyStr "busy")))))
           get_users
           (openapi_request.mkResponse 503 (Return (PyStr "busy"))) /\
  exists name url params,
    run (openapi_request.openapi_request
           (requests_answering
              (Return (openapi_request.mkResponse 503 (Return (PyStr "busy")))))
           get_users)
      = ([Request name url params], Return PyNone).
Proof.
  assert (Ha : answered
            (requests_answering
               (Return (openapi_request.mkResponse 503 (Return (PyStr "busy")))))
            get_users
            (openapi_request.mkResponse 503 (Return (PyStr "busy")))).
  { eexists _, _, _, _, _. repeat split; reflexivity. }
  split; [exact Ha |].
  apply (openapi_request_other_status _ _ _ Ha). simpl. discriminate.
Defined.

End SiblingsMore.
